(** * bc-marketplace chaincode (v0.6): a shallow embedding and its properties

    The development follows [v0.6/bc_marketplace_cc.go].  The chaincode is a
    collection of Go functions that read and write a key/value ledger through
    a [shim.ChaincodeStubInterface].  Here

    - the ledger is a finite map from keys to byte strings and every
      chaincode function is a state transformer over it;
    - Go's [(value, error)] results are pairs whose second component is an
      optional message ([None] is Go's [nil]);
    - Go's [int] is [Z] (no arithmetic is ever performed on these values, they
      are only compared with constants and copied);
    - a Go slice is an optional list: [None] is the [nil] slice, which
      [encoding/json] prints differently from an empty one;
    - the library functions the chaincode calls ([encoding/json],
      [strings.TrimSpace], [time.Now]) are the fields of the class [GoLib];
      every general statement holds for any implementation of them.  A
      concrete instance, [GoJson], implements them on an ASCII subset of JSON
      so that the chaincode can be run on concrete requests. *)

From stdpp Require Import base option list strings gmap pretty.
From Stdlib Require Import ZArith Ascii String Lia.

Local Open Scope string_scope.
Local Open Scope list_scope.
Local Open Scope Z_scope.

(** ** Go values *)

(** A byte slice and a string are both strings here; an [error] is an
    optional message. *)
Abbreviation bytes := string.
Abbreviation error := (option string).

Definition errors_New (msg : string) : error := Some msg.

Definition slice (A : Type) := option (list A).

Definition elems {A} (s : slice A) : list A := default [] s.

(** Go's builtin [append(s, x)]: the result is never [nil]. *)
Definition go_append {A} (s : slice A) (x : A) : slice A := Some (elems s ++ [x]).

(** Go's builtin [len] on a string or a byte slice. *)
Definition len (s : string) : Z := Z.of_nat (String.length s).

Definition strconv_Itoa (n : Z) : string := pretty n.

(** ** Constants of the chaincode *)

Definition landKeysName := "landKeys".
Definition propertyKeysName := "propertyKeys".
Definition propertyAdKeysName := "propertyAdKeys".
Definition buyerKeysName := "buyerKeys".
Definition sellerKeysName := "sellerKeys".
Definition bankKeysName := "bankKeys".
Definition appraiserKeysName := "appraiserKeys".
Definition auditorKeysName := "appraiserKeys".
Definition maKeysName := "maKeys".
Definition scKeysName := "scKeys".
Definition aaKeysName := "aaKeys".
Definition maLogKeysName := "maLogKeys".

Definition bcLogsKey := "bcLogsKey".

Definition typeLand := "land:".
Definition typePermit := "permit:".
Definition typeMortgageApplication := "ma:".
Definition typeSalesContract := "sc:".
Definition typeAppraiserApplication := "aa:".
Definition typeProperty := "prop:".
Definition typePropertyAd := "propad:".
Definition typeBuyer := "buyer:".
Definition typeSeller := "seller:".
Definition typeBank := "bank:".
Definition typeAppraiser := "appraiser:".
Definition typeUser := "user:".
Definition typeAuditor := "auditor:".
Definition typeMALog := "malog:".

Definition BUYER : Z := 1.
Definition SELLER : Z := 2.
Definition BANK : Z := 3.
Definition APPRAISER : Z := 4.
Definition AUDITOR : Z := 5.
Definition USER : Z := 6.
Definition LAND : Z := 7.
Definition PROPERTY : Z := 8.
Definition PROPERTYAD : Z := 9.
Definition MORTGAGEAPPLICATION : Z := 10.
Definition SALESCONTRACT : Z := 11.
Definition APPRAISERAPPLICATION : Z := 12.
Definition MALOG : Z := 13.

Definition BUYER_A : Z := 1.
Definition SELLER_A : Z := 2.
Definition BANK_A : Z := 3.
Definition APPRAISER_A : Z := 4.
Definition AUDITOR_A : Z := 5.

(** ** Data model

    Go lets every struct have its own [ID] or [Status]; the projections here
    carry the struct's initials. *)

Record FinancialInfo := {
  FI_MonthlySalary : Z;
  FI_OtherIncome : Z;
  FI_OtherExpenditure : Z;
  FI_MonthlyRent : Z;
  FI_MonthlyLoanPayment : Z
}.

Record PersonalInfo := {
  PI_Firstname : string;
  PI_Lastname : string;
  PI_DOB : string;
  PI_Phone : string;
  PI_Mobile : string;
  PI_Email : string
}.

Record MortgageApplication := {
  MA_ID : string;
  MA_PropertyId : string;
  MA_LandId : string;
  MA_PermitId : string;
  MA_BuyerId : string;
  MA_AppraisalApplicationId : string;
  MA_SalesContractId : string;
  MA_PersonalInfo : PersonalInfo;
  MA_FinancialInfo : FinancialInfo;
  MA_Status : string;
  MA_RequestedAmount : Z;
  MA_FairMarketValue : Z;
  MA_ApprovedAmount : Z;
  MA_ReviewerId : string;
  MA_LastModifiedDate : string
}.

Record SalesContract := {
  SC_ID : string;
  SC_PropertyId : string;
  SC_BuyerId : string;
  SC_SellerId : string;
  SC_ReviewerId : string;
  SC_BuyerSignature : string;
  SC_SellerSignature : string;
  SC_Status : string;
  SC_Price : Z;
  SC_LastModifiedDate : string
}.

Record AppraiserApplication := {
  AA_ID : string;
  AA_MortgageApplicationId : string;
  AA_AppraiserId : string;
  AA_ReviewerId : string;
  AA_PropertyId : string;
  AA_Status : string;
  AA_FairMarketValue : Z;
  AA_LastModifiedDate : string
}.

Record Buyer := {
  Buyer_ID : string;
  Buyer_Affiliation : Z;
  Buyer_MortgageApplications : slice string;
  Buyer_SalesContracts : slice string
}.

Record Seller := {
  Seller_ID : string;
  Seller_Affiliation : Z;
  Seller_SalesContracts : slice string
}.

Record Bank := {
  Bank_ID : string;
  Bank_Affiliation : Z;
  Bank_MortgageApplications : slice string;
  Bank_SalesContracts : slice string
}.

Record Appraiser := {
  Appraiser_ID : string;
  Appraiser_Affiliation : Z;
  Appraiser_AppraiserApplications : slice string
}.

Record MAUpdateSchema := {
  MAU_Status : string;
  MAU_SalesContractId : string;
  MAU_FairMarketValue : Z;
  MAU_ApprovedAmount : Z
}.

Record AAUpdateSchema := {
  AAU_Status : string;
  AAU_FairMarketValue : Z
}.

Record SCUpdateSchema := {
  SCU_Status : string;
  SCU_BuyerSignature : string;
  SCU_SellerSignature : string;
  SCU_Price : Z
}.

Record MALog := {
  Log_MortgageApplicationId : string;
  Log_BuyerId : string;
  Log_ReviewerId : string;
  Log_Status : string;
  Log_Action : string;
  Log_Text : string;
  Log_Timestamp : string
}.

Record MALogHolder := {
  MALogs : slice MALog
}.

(** Field assignments ([ma.Status = status] and the like). *)

Definition MA_set_Status (ma : MortgageApplication) (v : string) : MortgageApplication :=
  {| MA_ID := MA_ID ma; MA_PropertyId := MA_PropertyId ma; MA_LandId := MA_LandId ma;
     MA_PermitId := MA_PermitId ma; MA_BuyerId := MA_BuyerId ma;
     MA_AppraisalApplicationId := MA_AppraisalApplicationId ma;
     MA_SalesContractId := MA_SalesContractId ma;
     MA_PersonalInfo := MA_PersonalInfo ma; MA_FinancialInfo := MA_FinancialInfo ma;
     MA_Status := v;
     MA_RequestedAmount := MA_RequestedAmount ma; MA_FairMarketValue := MA_FairMarketValue ma;
     MA_ApprovedAmount := MA_ApprovedAmount ma; MA_ReviewerId := MA_ReviewerId ma;
     MA_LastModifiedDate := MA_LastModifiedDate ma |}.

Definition MA_set_SalesContractId (ma : MortgageApplication) (v : string) : MortgageApplication :=
  {| MA_ID := MA_ID ma; MA_PropertyId := MA_PropertyId ma; MA_LandId := MA_LandId ma;
     MA_PermitId := MA_PermitId ma; MA_BuyerId := MA_BuyerId ma;
     MA_AppraisalApplicationId := MA_AppraisalApplicationId ma;
     MA_SalesContractId := v;
     MA_PersonalInfo := MA_PersonalInfo ma; MA_FinancialInfo := MA_FinancialInfo ma;
     MA_Status := MA_Status ma;
     MA_RequestedAmount := MA_RequestedAmount ma; MA_FairMarketValue := MA_FairMarketValue ma;
     MA_ApprovedAmount := MA_ApprovedAmount ma; MA_ReviewerId := MA_ReviewerId ma;
     MA_LastModifiedDate := MA_LastModifiedDate ma |}.

Definition MA_set_ApprovedAmount (ma : MortgageApplication) (v : Z) : MortgageApplication :=
  {| MA_ID := MA_ID ma; MA_PropertyId := MA_PropertyId ma; MA_LandId := MA_LandId ma;
     MA_PermitId := MA_PermitId ma; MA_BuyerId := MA_BuyerId ma;
     MA_AppraisalApplicationId := MA_AppraisalApplicationId ma;
     MA_SalesContractId := MA_SalesContractId ma;
     MA_PersonalInfo := MA_PersonalInfo ma; MA_FinancialInfo := MA_FinancialInfo ma;
     MA_Status := MA_Status ma;
     MA_RequestedAmount := MA_RequestedAmount ma; MA_FairMarketValue := MA_FairMarketValue ma;
     MA_ApprovedAmount := v; MA_ReviewerId := MA_ReviewerId ma;
     MA_LastModifiedDate := MA_LastModifiedDate ma |}.

Definition MA_set_FairMarketValue (ma : MortgageApplication) (v : Z) : MortgageApplication :=
  {| MA_ID := MA_ID ma; MA_PropertyId := MA_PropertyId ma; MA_LandId := MA_LandId ma;
     MA_PermitId := MA_PermitId ma; MA_BuyerId := MA_BuyerId ma;
     MA_AppraisalApplicationId := MA_AppraisalApplicationId ma;
     MA_SalesContractId := MA_SalesContractId ma;
     MA_PersonalInfo := MA_PersonalInfo ma; MA_FinancialInfo := MA_FinancialInfo ma;
     MA_Status := MA_Status ma;
     MA_RequestedAmount := MA_RequestedAmount ma; MA_FairMarketValue := v;
     MA_ApprovedAmount := MA_ApprovedAmount ma; MA_ReviewerId := MA_ReviewerId ma;
     MA_LastModifiedDate := MA_LastModifiedDate ma |}.

Definition AA_set_Status (aa : AppraiserApplication) (v : string) : AppraiserApplication :=
  {| AA_ID := AA_ID aa; AA_MortgageApplicationId := AA_MortgageApplicationId aa;
     AA_AppraiserId := AA_AppraiserId aa; AA_ReviewerId := AA_ReviewerId aa;
     AA_PropertyId := AA_PropertyId aa; AA_Status := v;
     AA_FairMarketValue := AA_FairMarketValue aa;
     AA_LastModifiedDate := AA_LastModifiedDate aa |}.

Definition AA_set_FairMarketValue (aa : AppraiserApplication) (v : Z) : AppraiserApplication :=
  {| AA_ID := AA_ID aa; AA_MortgageApplicationId := AA_MortgageApplicationId aa;
     AA_AppraiserId := AA_AppraiserId aa; AA_ReviewerId := AA_ReviewerId aa;
     AA_PropertyId := AA_PropertyId aa; AA_Status := AA_Status aa;
     AA_FairMarketValue := v;
     AA_LastModifiedDate := AA_LastModifiedDate aa |}.

Definition SC_set_Status (sc : SalesContract) (v : string) : SalesContract :=
  {| SC_ID := SC_ID sc; SC_PropertyId := SC_PropertyId sc; SC_BuyerId := SC_BuyerId sc;
     SC_SellerId := SC_SellerId sc; SC_ReviewerId := SC_ReviewerId sc;
     SC_BuyerSignature := SC_BuyerSignature sc; SC_SellerSignature := SC_SellerSignature sc;
     SC_Status := v; SC_Price := SC_Price sc;
     SC_LastModifiedDate := SC_LastModifiedDate sc |}.

Definition SC_set_BuyerSignature (sc : SalesContract) (v : string) : SalesContract :=
  {| SC_ID := SC_ID sc; SC_PropertyId := SC_PropertyId sc; SC_BuyerId := SC_BuyerId sc;
     SC_SellerId := SC_SellerId sc; SC_ReviewerId := SC_ReviewerId sc;
     SC_BuyerSignature := v; SC_SellerSignature := SC_SellerSignature sc;
     SC_Status := SC_Status sc; SC_Price := SC_Price sc;
     SC_LastModifiedDate := SC_LastModifiedDate sc |}.

Definition SC_set_SellerSignature (sc : SalesContract) (v : string) : SalesContract :=
  {| SC_ID := SC_ID sc; SC_PropertyId := SC_PropertyId sc; SC_BuyerId := SC_BuyerId sc;
     SC_SellerId := SC_SellerId sc; SC_ReviewerId := SC_ReviewerId sc;
     SC_BuyerSignature := SC_BuyerSignature sc; SC_SellerSignature := v;
     SC_Status := SC_Status sc; SC_Price := SC_Price sc;
     SC_LastModifiedDate := SC_LastModifiedDate sc |}.

Definition SC_set_Price (sc : SalesContract) (v : Z) : SalesContract :=
  {| SC_ID := SC_ID sc; SC_PropertyId := SC_PropertyId sc; SC_BuyerId := SC_BuyerId sc;
     SC_SellerId := SC_SellerId sc; SC_ReviewerId := SC_ReviewerId sc;
     SC_BuyerSignature := SC_BuyerSignature sc; SC_SellerSignature := SC_SellerSignature sc;
     SC_Status := SC_Status sc; SC_Price := v;
     SC_LastModifiedDate := SC_LastModifiedDate sc |}.

Definition Buyer_set_MortgageApplications (b : Buyer) (v : slice string) : Buyer :=
  {| Buyer_ID := Buyer_ID b; Buyer_Affiliation := Buyer_Affiliation b;
     Buyer_MortgageApplications := v; Buyer_SalesContracts := Buyer_SalesContracts b |}.

Definition Buyer_set_SalesContracts (b : Buyer) (v : slice string) : Buyer :=
  {| Buyer_ID := Buyer_ID b; Buyer_Affiliation := Buyer_Affiliation b;
     Buyer_MortgageApplications := Buyer_MortgageApplications b; Buyer_SalesContracts := v |}.

Definition Bank_set_MortgageApplications (b : Bank) (v : slice string) : Bank :=
  {| Bank_ID := Bank_ID b; Bank_Affiliation := Bank_Affiliation b;
     Bank_MortgageApplications := v; Bank_SalesContracts := Bank_SalesContracts b |}.

Definition Bank_set_SalesContracts (b : Bank) (v : slice string) : Bank :=
  {| Bank_ID := Bank_ID b; Bank_Affiliation := Bank_Affiliation b;
     Bank_MortgageApplications := Bank_MortgageApplications b; Bank_SalesContracts := v |}.

Definition Seller_set_SalesContracts (s : Seller) (v : slice string) : Seller :=
  {| Seller_ID := Seller_ID s; Seller_Affiliation := Seller_Affiliation s;
     Seller_SalesContracts := v |}.

Definition Appraiser_set_AppraiserApplications (a : Appraiser) (v : slice string) : Appraiser :=
  {| Appraiser_ID := Appraiser_ID a; Appraiser_Affiliation := Appraiser_Affiliation a;
     Appraiser_AppraiserApplications := v |}.

(** ** The libraries the chaincode calls

    [Unmarshal] is [json.Unmarshal] into a freshly declared variable, which
    is the only way the chaincode calls it: the result is the decoded value
    (whatever was filled in, when decoding fails) and the error.  [Marshal]
    is [json.Marshal], which cannot fail on the structs of this program. *)

Class Json (A : Type) := {
  Marshal : A -> bytes;
  Unmarshal : bytes -> A * error
}.

Class GoLib := {
  strings_TrimSpace : string -> string;
  (** the reading of the wall clock at the n-th call of [time.Now], already
      formatted with the layout ["2006-01-02 15:04:05"] *)
  time_Format : nat -> string;
  json_MortgageApplication :: Json MortgageApplication;
  json_SalesContract :: Json SalesContract;
  json_AppraiserApplication :: Json AppraiserApplication;
  json_Buyer :: Json Buyer;
  json_Seller :: Json Seller;
  json_Bank :: Json Bank;
  json_Appraiser :: Json Appraiser;
  json_MAUpdateSchema :: Json MAUpdateSchema;
  json_AAUpdateSchema :: Json AAUpdateSchema;
  json_SCUpdateSchema :: Json SCUpdateSchema;
  json_keys :: Json (slice string);
  json_MALogHolder :: Json MALogHolder;
  json_logs :: Json (slice MALog)
}.

(** ** The stub: ledger state and clock *)

Record ChaincodeStub := {
  State : gmap string bytes;
  Clock : nat
}.

Definition M (A : Type) : Type := ChaincodeStub -> A * ChaincodeStub.

Definition ret {A} (a : A) : M A := fun stub => (a, stub).

Definition bind {A B} (c : M A) (k : A -> M B) : M B :=
  fun stub => let (a, stub') := c stub in k a stub'.

Declare Scope go_scope.
Delimit Scope go_scope with go.
Notation "'let*' p := c 'in' k" := (bind c (fun p => k))
  (at level 10, p pattern, c at level 100, k at level 200) : go_scope.
Local Open Scope go_scope.

(** Run an invocation and keep the state; run it and keep the result. *)
Definition exec {A} (c : M A) (stub : ChaincodeStub) : ChaincodeStub := snd (c stub).
Definition eval {A} (c : M A) (stub : ChaincodeStub) : A := fst (c stub).

(** [stub.GetState]: an absent key reads as no bytes.  The ledger of this
    model always answers; the [err != nil] branches of the callers are kept
    as they are written. *)
Definition GetState (key : string) : M (bytes * error) :=
  fun stub => ((default "" (State stub !! key), None), stub).

Definition PutState (key : string) (value : bytes) : M error :=
  fun stub => (None, {| State := <[key := value]> (State stub); Clock := Clock stub |}).

Definition time_Now `{GoLib} : M string :=
  fun stub => (time_Format (Clock stub), {| State := State stub; Clock := S (Clock stub) |}).

(** ** Key namespace *)

Definition GetStateKey (id : string) (otype : Z) : string * error :=
  if otype =? MORTGAGEAPPLICATION then (typeMortgageApplication +:+ id, None)
  else if otype =? SALESCONTRACT then (typeSalesContract +:+ id, None)
  else if otype =? APPRAISERAPPLICATION then (typeAppraiserApplication +:+ id, None)
  else if otype =? USER then (typeUser +:+ id, None)
  else if otype =? BUYER then (typeBuyer +:+ id, None)
  else if otype =? SELLER then (typeSeller +:+ id, None)
  else if otype =? BANK then (typeBank +:+ id, None)
  else if otype =? APPRAISER then (typeAppraiser +:+ id, None)
  else if otype =? AUDITOR then (typeAuditor +:+ id, None)
  else if otype =? LAND then (typeLand +:+ id, None)
  else if otype =? PROPERTY then (typeProperty +:+ id, None)
  else if otype =? PROPERTYAD then (typePropertyAd +:+ id, None)
  else if otype =? MALOG then (typeMALog +:+ id, None)
  else ("", errors_New "Invalid type").


(** ** The chaincode

    Every function below takes the library as an argument; [fmt.Println] and
    [fmt.Printf] calls are left out.  In the [Save*] functions the test
    [&x != nil] of the source is always true (the address of a local
    variable), so only its first branch is kept. *)

Section Chaincode.
Context `{GoLib}.

(** *** Indexed collections *)

Definition AddKey (id keysName : string) : M (bool * error) :=
  let* (maKeysBytes, err) := GetState keysName in
  let '(maKeys, err) :=
    if bool_decide (err <> None) || (len maKeysBytes =? 0)
    then (Some [], None)
    else Unmarshal (A := slice string) maKeysBytes in
  if err is Some e then ret (false, Some e) else
  let maKeys := go_append maKeys id in
  let bytes := Marshal maKeys in
  let* err := PutState maKeysName bytes in
  if err is Some e then ret (false, Some e) else
  ret (true, None).

(** *** Party records *)

Definition GetBuyer (id : string) : M (Buyer * error) :=
  let buyer := {| Buyer_ID := ""; Buyer_Affiliation := 0;
                  Buyer_MortgageApplications := None; Buyer_SalesContracts := None |} in
  let* (bytes, err) := GetState id in
  if err is Some _ then ret (buyer, errors_New ("GetBuyer: Failed to get user with id " +:+ id)) else
  if len bytes =? 0 then
    let mas := Some [] in
    let sc := Some [] in
    let buyer := {| Buyer_ID := id; Buyer_Affiliation := BUYER_A;
                    Buyer_MortgageApplications := mas; Buyer_SalesContracts := sc |} in
    let bytes := Marshal buyer in
    let* err := PutState id bytes in
    if err is Some _ then ret (buyer, errors_New ("GetBuyer: Could not save buyer with id " +:+ id)) else
    ret (buyer, None)
  else
    let '(buyer, err) := Unmarshal (A := Buyer) bytes in
    if err is Some _ then ret (buyer, errors_New ("GetBuyer: Could not unmarshal buyer with id " +:+ id)) else
    ret (buyer, None).

Definition SaveBuyer (buyer : Buyer) (id : string) : M error :=
  let bytes := Marshal buyer in
  let* err := PutState id bytes in
  if err is Some e then ret (Some e) else
  ret None.

Definition GetBank (id : string) : M (Bank * error) :=
  let bank := {| Bank_ID := ""; Bank_Affiliation := 0;
                 Bank_MortgageApplications := None; Bank_SalesContracts := None |} in
  let* (bytes, err) := GetState id in
  if err is Some _ then ret (bank, errors_New ("GetBank: Failed to get user with id " +:+ id)) else
  if len bytes =? 0 then
    let mas := Some [] in
    let sc := Some [] in
    let bank := {| Bank_ID := id; Bank_Affiliation := BANK_A;
                   Bank_MortgageApplications := mas; Bank_SalesContracts := sc |} in
    let bytes := Marshal bank in
    let* err := PutState id bytes in
    if err is Some _ then ret (bank, errors_New ("GetBank: Could not save bank with id " +:+ id)) else
    ret (bank, None)
  else
    let '(bank, err) := Unmarshal (A := Bank) bytes in
    if err is Some _ then ret (bank, errors_New ("GetBank: Could not unmarshal bank with id " +:+ id)) else
    ret (bank, None).

Definition SaveBank (bank : Bank) (id : string) : M error :=
  let bytes := Marshal bank in
  let* err := PutState id bytes in
  if err is Some e then ret (Some e) else
  ret None.

Definition GetAppraiser (id : string) : M (Appraiser * error) :=
  let appraiser := {| Appraiser_ID := ""; Appraiser_Affiliation := 0;
                      Appraiser_AppraiserApplications := None |} in
  let* (bytes, err) := GetState id in
  if err is Some _ then ret (appraiser, errors_New ("GetAppraiser: Failed to get user with id " +:+ id)) else
  if len bytes =? 0 then
    let aa := Some [] in
    let appraiser := {| Appraiser_ID := id; Appraiser_Affiliation := APPRAISER_A;
                        Appraiser_AppraiserApplications := aa |} in
    let bytes := Marshal appraiser in
    let* err := PutState id bytes in
    if err is Some _ then ret (appraiser, errors_New ("GetAppraiser: Could not save appraiser with id " +:+ id)) else
    ret (appraiser, None)
  else
    let '(appraiser, err) := Unmarshal (A := Appraiser) bytes in
    if err is Some _ then ret (appraiser, errors_New ("GetAppraiser: Could not unmarshal appraiser with id " +:+ id)) else
    ret (appraiser, None).

Definition SaveAppraiser (appraiser : Appraiser) (id : string) : M error :=
  let bytes := Marshal appraiser in
  let* err := PutState id bytes in
  if err is Some e then ret (Some e) else
  ret None.

Definition GetSeller (id : string) : M (Seller * error) :=
  let seller := {| Seller_ID := ""; Seller_Affiliation := 0; Seller_SalesContracts := None |} in
  let* (bytes, err) := GetState id in
  if err is Some _ then ret (seller, errors_New ("GetSeller: Failed to get user with id " +:+ id)) else
  if len bytes =? 0 then
    let sc := Some [] in
    let seller := {| Seller_ID := id; Seller_Affiliation := SELLER_A; Seller_SalesContracts := sc |} in
    let bytes := Marshal seller in
    let* err := PutState id bytes in
    if err is Some _ then ret (seller, errors_New ("GetSeller: Could not save seller with id " +:+ id)) else
    ret (seller, None)
  else
    let '(seller, err) := Unmarshal (A := Seller) bytes in
    if err is Some _ then ret (seller, errors_New ("GetSeller: Could not unmarshal seller with id " +:+ id)) else
    ret (seller, None).

Definition SaveSeller (seller : Seller) (id : string) : M error :=
  let bytes := Marshal seller in
  let* err := PutState id bytes in
  if err is Some e then ret (Some e) else
  ret None.

(** *** Audit log *)

Definition GetMALogHolder (id : string) : M (MALogHolder * error) :=
  let lh := {| MALogs := None |} in
  let* (bytes, err) := GetState id in
  if err is Some _ then ret (lh, errors_New ("GetMALogHolder: Failed to get logHolder with id " +:+ id)) else
  if len bytes =? 0 then
    let logs := Some [] in
    let lh := {| MALogs := logs |} in
    let bytes := Marshal lh in
    let* err := PutState id bytes in
    if err is Some _ then ret (lh, errors_New ("GetMALogHolder: Could not save logHolder with id " +:+ id)) else
    ret (lh, None)
  else
    let '(lh, err) := Unmarshal (A := MALogHolder) bytes in
    if err is Some _ then ret (lh, errors_New ("GetBuyer: Could not unmarshal buyer with id " +:+ id)) else
    ret (lh, None).

Definition SaveMALogHolder (lh : MALogHolder) (id : string) : M error :=
  let bytes := Marshal lh in
  let* err := PutState id bytes in
  if err is Some e then ret (Some e) else
  ret None.

Definition GetBCLogs : M (slice MALog * error) :=
  let logs : slice MALog := None in
  let* (bytes, err) := GetState bcLogsKey in
  if err is Some _ then ret (logs, errors_New ("GetBCLogs: Failed to get logs with id " +:+ bcLogsKey)) else
  if len bytes =? 0 then
    let logs : slice MALog := Some [] in
    ret (logs, None)
  else
    let '(logs, err) := Unmarshal (A := slice MALog) bytes in
    if err is Some _ then ret (logs, errors_New ("GetBCLogs: Could not unmarshal logs with id " +:+ bcLogsKey)) else
    ret (logs, None).

Definition SaveBCLogs (logs : slice MALog) : M error :=
  let bytes := Marshal logs in
  let* err := PutState bcLogsKey bytes in
  if err is Some e then ret (Some e) else
  ret None.

Definition GetMALogKeys : M (slice string * error) :=
  let keys : slice string := None in
  let* (bytes, err) := GetState maLogKeysName in
  if err is Some _ then ret (keys, errors_New ("GetMALogKeys: Failed to get logs with id " +:+ maLogKeysName)) else
  if len bytes =? 0 then
    let keys : slice string := Some [] in
    ret (keys, None)
  else
    let '(keys, err) := Unmarshal (A := slice string) bytes in
    if err is Some _ then ret (keys, errors_New ("GetMALogKeys: Could not unmarshal logs with id " +:+ maLogKeysName)) else
    ret (keys, None).

Definition SaveMALogKeys (keys : slice string) : M error :=
  let bytes := Marshal keys in
  let* err := PutState maLogKeysName bytes in
  if err is Some e then ret (Some e) else
  ret None.

(** The entry [AppendMALog] builds from its arguments and the clock. *)
Definition newMALog (action text status id timestamp : string) : MALog :=
  {| Log_MortgageApplicationId := id;
     Log_BuyerId := "";
     Log_ReviewerId := "";
     Log_Status := status;
     Log_Action := action;
     Log_Text := text;
     Log_Timestamp := timestamp |}.

Definition AppendMALog (action text status id : string) : M error :=
  let* nowTime := time_Now in
  let '(key, _) := GetStateKey id MALOG in
  let* (lh, err) := GetMALogHolder key in
  let log := newMALog action text status id nowTime in
  let lh := {| MALogs := go_append (MALogs lh) log |} in
  let* err := SaveMALogHolder lh key in
  if err is Some e then ret (Some e) else
  let* (keys, err) := GetMALogKeys in
  if err is Some e then ret (Some e) else
  let keys := go_append keys key in
  let* _ := SaveMALogKeys keys in
  let* (bcLogs, err) := GetBCLogs in
  if err is Some e then ret (Some e) else
  let bcLogs := go_append bcLogs log in
  let* _ := SaveBCLogs bcLogs in
  ret None.

(** *** Mortgage applications *)

Definition zero_MortgageApplication : MortgageApplication :=
  {| MA_ID := ""; MA_PropertyId := ""; MA_LandId := ""; MA_PermitId := ""; MA_BuyerId := "";
     MA_AppraisalApplicationId := ""; MA_SalesContractId := "";
     MA_PersonalInfo := {| PI_Firstname := ""; PI_Lastname := ""; PI_DOB := ""; PI_Phone := "";
                           PI_Mobile := ""; PI_Email := "" |};
     MA_FinancialInfo := {| FI_MonthlySalary := 0; FI_OtherIncome := 0; FI_OtherExpenditure := 0;
                            FI_MonthlyRent := 0; FI_MonthlyLoanPayment := 0 |};
     MA_Status := ""; MA_RequestedAmount := 0; MA_FairMarketValue := 0; MA_ApprovedAmount := 0;
     MA_ReviewerId := ""; MA_LastModifiedDate := "" |}.

Definition zero_SalesContract : SalesContract :=
  {| SC_ID := ""; SC_PropertyId := ""; SC_BuyerId := ""; SC_SellerId := ""; SC_ReviewerId := "";
     SC_BuyerSignature := ""; SC_SellerSignature := ""; SC_Status := ""; SC_Price := 0;
     SC_LastModifiedDate := "" |}.

Definition zero_AppraiserApplication : AppraiserApplication :=
  {| AA_ID := ""; AA_MortgageApplicationId := ""; AA_AppraiserId := ""; AA_ReviewerId := "";
     AA_PropertyId := ""; AA_Status := ""; AA_FairMarketValue := 0; AA_LastModifiedDate := "" |}.

Definition CreateMortgageApplication (callerId : string) (callerAffiliation : Z)
    (args : list string) : M (bytes * error) :=
  match args with
  | mortgageApplicationId :: mortgageApplicationInput :: _ =>
    let '(maKey, err) := GetStateKey mortgageApplicationId MORTGAGEAPPLICATION in
    let '(ma, err) := Unmarshal (A := MortgageApplication) mortgageApplicationInput in
    if err is Some e then ret ("", Some e) else
    let bankId := MA_ReviewerId ma in
    let* err := PutState maKey mortgageApplicationInput in
    if err is Some e then ret ("", Some e) else
    let* (ok, err) := AddKey maKey maKeysName in
    if err is Some e then ret ("", Some e) else
    let '(userKey, err) := GetStateKey callerId USER in
    let* (user, err) := GetBuyer userKey in
    let mas := Buyer_MortgageApplications user in
    let user := Buyer_set_MortgageApplications user (go_append mas mortgageApplicationId) in
    let* err := SaveBuyer user userKey in
    if err is Some e then ret ("", Some e) else
    let '(bankKey, err) := GetStateKey bankId USER in
    let* (bank, err) := GetBank bankKey in
    let bmas := Bank_MortgageApplications bank in
    let bank := Bank_set_MortgageApplications bank (go_append bmas mortgageApplicationId) in
    let* err := SaveBank bank bankKey in
    if err is Some e then ret ("", Some e) else
    let* _ := AppendMALog "CreateMortgageApplication"
                (callerId +:+ " Submitted new MortgageApplication") "Submitted"
                mortgageApplicationId in
    ret ("", None)
  | _ => ret ("", errors_New "Could not create MortgageApplication. Invalid input")
  end.

Definition GetMortgageApplication (callerId : string) (callerAffiliation : Z)
    (args : list string) : M (MortgageApplication * bytes * error) :=
  let ma := zero_MortgageApplication in
  match args with
  | maId :: _ =>
    let '(maKey, err) := GetStateKey maId MORTGAGEAPPLICATION in
    let* (bytes, err) := GetState maKey in
    if err is Some e then ret (ma, "", Some e) else
    let '(ma, err) := Unmarshal (A := MortgageApplication) bytes in
    if err is Some e then ret (ma, "", Some e) else
    if String.eqb callerId (MA_BuyerId ma) || String.eqb callerId (MA_ReviewerId ma)
       || (callerAffiliation =? AUDITOR_A)
    then ret (ma, bytes, None)
    else ret (ma, "", errors_New ("User " +:+ callerId +:+
                 "does not have rights to access mortgageApplication with id " +:+ maId))
  | [] => ret (ma, "", errors_New "Could not create MortgageApplication. Invalid input")
  end.

Definition SaveMortgageApplication (ma : MortgageApplication) (id : string) : M (bytes * error) :=
  let bytes := Marshal ma in
  let '(maKey, err) := GetStateKey id MORTGAGEAPPLICATION in
  let* err := PutState maKey bytes in
  if err is Some e then ret ("", Some e) else
  ret (bytes, None).

Definition UpdateMortgageApplication (callerId : string) (callerAffiliation : Z)
    (args : list string) : M (bytes * error) :=
  match args with
  | id :: args1 :: _ =>
    let* (ma, _, err) := GetMortgageApplication callerId AUDITOR_A [id] in
    if err is Some e then ret ("", Some e) else
    let '(updates, err) := Unmarshal (A := MAUpdateSchema) args1 in
    if err is Some e then ret ("", Some e) else
    let msg := "" in
    if String.eqb callerId (MA_ReviewerId ma) then
      let status := strings_TrimSpace (MAU_Status updates) in
      let '(ma, statusChanged, msg) :=
        if 0 <? len status then
          let currentStatus := MA_Status ma in
          (MA_set_Status ma status, true,
           msg +:+ callerId +:+ " changed status from " +:+ currentStatus +:+ " to " +:+ status)
        else (ma, false, msg) in
      let salesContractId := strings_TrimSpace (MAU_SalesContractId updates) in
      let '(ma, scIdChanged, msg) :=
        if 0 <? len salesContractId then
          (MA_set_SalesContractId ma salesContractId, true,
           if statusChanged
           then msg +:+ "and updated sales contract Id to " +:+ salesContractId +:+ "."
           else msg +:+ callerId +:+ " updated sales contract Id to " +:+ salesContractId +:+ ".")
        else (ma, false, msg) in
      let approvedAmount := MAU_ApprovedAmount updates in
      let '(ma, amChanged, msg) :=
        if negb (approvedAmount =? 0) then
          (MA_set_ApprovedAmount ma approvedAmount, true,
           if statusChanged || scIdChanged
           then msg +:+ "and updated approved amount to " +:+ strconv_Itoa approvedAmount +:+ "."
           else msg +:+ callerId +:+ " updated approved amount to " +:+
                  strconv_Itoa approvedAmount +:+ ".")
        else (ma, false, msg) in
      if statusChanged || scIdChanged || amChanged then
        let* (bytes, err) := SaveMortgageApplication ma id in
        if err is Some e then ret ("", Some e) else
        let* _ := AppendMALog "UpdateMortgageApplication" msg (MA_Status ma) id in
        ret (bytes, None)
      else ret ("", None)
    else if callerAffiliation =? APPRAISER_A then
      let fairMarketValue := MAU_FairMarketValue updates in
      if negb (fairMarketValue =? 0) then
        let ma := MA_set_FairMarketValue ma fairMarketValue in
        let* (bytes, err) := SaveMortgageApplication ma id in
        if err is Some e then ret ("", Some e) else
        let* _ := AppendMALog "UpdateMortgageApplication" msg (MA_Status ma) id in
        ret (bytes, None)
      else ret ("", None)
    else ret ("", errors_New ("User with id " +:+ callerId +:+
                 "does not have rights to update the mortgage application"))
  | _ => ret ("", errors_New "Could not update mortgageApplication. No parameters provided for update ")
  end.

(** *** Appraiser applications *)

Definition CreateAppraiserApplication (callerId : string) (callerAffiliation : Z)
    (args : list string) : M (bytes * error) :=
  match args with
  | appraiserApplicationId :: appraiserApplicationInput :: _ =>
    if negb (callerAffiliation =? BANK_A)
    then ret ("", errors_New (callerId +:+ " is not allowed to create appraiser application"))
    else
    let '(maKey, err) := GetStateKey appraiserApplicationId APPRAISERAPPLICATION in
    let* err := PutState maKey appraiserApplicationInput in
    if err is Some _
    then ret ("", errors_New ("Error saving CreateAppraiserApplication " +:+
                              appraiserApplicationId +:+ " to state"))
    else
    let '(aa, err) := Unmarshal (A := AppraiserApplication) appraiserApplicationInput in
    if err is Some e then ret ("", Some e) else
    let* (ok, err) := AddKey maKey aaKeysName in
    if err is Some e then ret ("", Some e) else
    let '(userKey, err) := GetStateKey (AA_AppraiserId aa) USER in
    let* (user, err) := GetAppraiser userKey in
    let mas := Appraiser_AppraiserApplications user in
    let user := Appraiser_set_AppraiserApplications user (go_append mas appraiserApplicationId) in
    let* err := SaveAppraiser user userKey in
    if err is Some _
    then ret ("", errors_New ("CreateAppraiserApplication: Failed to store updated user with id"
                              +:+ userKey))
    else
    let* _ := AppendMALog "CreateAppraiserApplication"
                (callerId +:+ " Submitted new AppraiserApplication") "Submitted"
                appraiserApplicationId in
    ret ("", None)
  | _ => ret ("", errors_New "Could not create CreateAppraiserApplication. Invalid input")
  end.

Definition GetAppraiserApplication (callerId : string) (callerAffiliation : Z)
    (args : list string) : M (AppraiserApplication * bytes * error) :=
  let ma := zero_AppraiserApplication in
  match args with
  | maId :: _ =>
    let '(maKey, err) := GetStateKey maId APPRAISERAPPLICATION in
    let* (bytes, err) := GetState maKey in
    if err is Some e then ret (ma, "", Some e) else
    let '(ma, err) := Unmarshal (A := AppraiserApplication) bytes in
    if err is Some e then ret (ma, "", Some e) else
    if String.eqb callerId (AA_AppraiserId ma) || String.eqb callerId (AA_ReviewerId ma)
       || (callerAffiliation =? AUDITOR_A)
    then ret (ma, bytes, None)
    else ret (ma, "", errors_New ("User " +:+ callerId +:+
                 "does not have rights to access appraiserApplication with id " +:+ maId))
  | [] => ret (ma, "", errors_New "Could not GetAppraiserApplication. Invalid input")
  end.

Definition SaveAppraiserApplication (ma : AppraiserApplication) (id : string) : M (bytes * error) :=
  let bytes := Marshal ma in
  let '(aaKey, err) := GetStateKey id APPRAISERAPPLICATION in
  let* err := PutState aaKey bytes in
  if err is Some e then ret ("", Some e) else
  ret (bytes, None).

(** The payload of the cascaded call, the Go raw strings
    [{"fairMarketValue":] and [}] around the decimal value.  The double
    quote is character 34. *)
Definition dquote : string := String (ascii_of_nat 34) "".

Definition fairMarketValue_payload (fairMarketValue : Z) : string :=
  "{" +:+ dquote +:+ "fairMarketValue" +:+ dquote +:+ ":" +:+
  strconv_Itoa fairMarketValue +:+ "}".

Definition UpdateAppraiserApplication (callerId : string) (callerAffiliation : Z)
    (args : list string) : M (bytes * error) :=
  match args with
  | id :: args1 :: _ =>
    let* (ma, _, err) := GetAppraiserApplication callerId callerAffiliation [id] in
    if err is Some e then ret ("", Some e) else
    if String.eqb callerId (AA_AppraiserId ma) then
      let '(updates, err) := Unmarshal (A := AAUpdateSchema) args1 in
      if err is Some e then ret ("", Some e) else
      let status := strings_TrimSpace (AAU_Status updates) in
      let '(ma, statusChanged, currentStatus) :=
        if 0 <? len status then (AA_set_Status ma status, true, AA_Status ma)
        else (ma, false, "") in
      let fairMarketValue := AAU_FairMarketValue updates in
      let '(ma, mvChanged) :=
        if negb (fairMarketValue =? 0) then (AA_set_FairMarketValue ma fairMarketValue, true)
        else (ma, false) in
      let* (bytes, err) := SaveAppraiserApplication ma id in
      if err is Some e then ret ("", Some e) else
      let* (bytes, err) := UpdateMortgageApplication callerId callerAffiliation
                             [AA_MortgageApplicationId ma;
                              fairMarketValue_payload fairMarketValue] in
      if err is Some e then ret ("", Some e) else
      let fmvStr := if mvChanged then strconv_Itoa fairMarketValue else "" in
      let msg :=
        if statusChanged && mvChanged then
          callerId +:+ " changed status from " +:+ currentStatus +:+ " to " +:+ status +:+
          " and updated fair market value: " +:+ fmvStr
        else if statusChanged && negb mvChanged then
          callerId +:+ " changed status from " +:+ currentStatus +:+ " to " +:+ status
        else if negb statusChanged && mvChanged then
          callerId +:+ " updated fair market value: " +:+ fmvStr
        else "" in
      let* _ := AppendMALog "UpdateAppraiserApplication" msg status id in
      ret (bytes, None)
    else ret ("", errors_New ("User with id " +:+ callerId +:+
                 "does not have rights to update the appraiser application"))
  | _ => ret ("", errors_New "Could not update appraiserApplication. No parameters provided for update ")
  end.

(** *** Sales contracts *)

Definition CreateSalesContract (callerId : string) (callerAffiliation : Z)
    (args : list string) : M (bytes * error) :=
  match args with
  | salesContractId :: salesContractInput :: _ =>
    if negb (callerAffiliation =? BUYER_A)
    then ret ("", errors_New (callerId +:+ " is not allowed to create seller contract"))
    else
    let '(maKey, err) := GetStateKey salesContractId SALESCONTRACT in
    let '(sc, err) := Unmarshal (A := SalesContract) salesContractInput in
    if err is Some e then ret ("", Some e) else
    let sellerId := SC_SellerId sc in
    let bankId := SC_ReviewerId sc in
    let* err := PutState maKey salesContractInput in
    if err is Some _
    then ret ("", errors_New ("Error saving CreateSalesContract " +:+ salesContractId +:+
                              " to state"))
    else
    let* (ok, err) := AddKey maKey scKeysName in
    if err is Some e then ret ("", Some e) else
    let '(userKey, err) := GetStateKey sellerId USER in
    let* (user, err) := GetSeller userKey in
    let mas := Seller_SalesContracts user in
    let user := Seller_set_SalesContracts user (go_append mas salesContractId) in
    let* err := SaveSeller user userKey in
    if err is Some _
    then ret ("", errors_New ("CreateSalesContract: Failed to store updated user with id" +:+ userKey))
    else
    let '(buyerKey, err) := GetStateKey callerId USER in
    let* (buyer, err) := GetBuyer buyerKey in
    let bmas := Buyer_SalesContracts buyer in
    let buyer := Buyer_set_SalesContracts buyer (go_append bmas salesContractId) in
    let* err := SaveBuyer buyer buyerKey in
    if err is Some _
    then ret ("", errors_New ("CreateSalesContract: Failed to store updated user with id" +:+ buyerKey))
    else
    let '(bankKey, err) := GetStateKey bankId USER in
    let* (bank, err) := GetBank bankKey in
    let bas := Bank_SalesContracts bank in
    let bank := Bank_set_SalesContracts bank (go_append bas salesContractId) in
    let* err := SaveBank bank bankKey in
    if err is Some _
    then ret ("", errors_New ("CreateSalesContract: Failed to store updated user with id" +:+ bankKey))
    else
    let* _ := AppendMALog "CreateSalesContract" (callerId +:+ " Submitted new SalesContract")
                "Submitted" salesContractId in
    ret ("", None)
  | _ => ret ("", errors_New "Could not create CreateSalesContract. Invalid input")
  end.

Definition GetSalesContract (callerId : string) (callerAffiliation : Z)
    (args : list string) : M (SalesContract * bytes * error) :=
  let ma := zero_SalesContract in
  match args with
  | maId :: _ =>
    let '(maKey, err) := GetStateKey maId SALESCONTRACT in
    let* (bytes, err) := GetState maKey in
    if err is Some e then ret (ma, "", Some e) else
    let '(ma, err) := Unmarshal (A := SalesContract) bytes in
    if err is Some e then ret (ma, "", Some e) else
    if String.eqb callerId (SC_SellerId ma) || String.eqb callerId (SC_BuyerId ma)
       || (callerAffiliation =? AUDITOR_A) || (callerAffiliation =? BANK_A)
    then ret (ma, bytes, None)
    else ret (ma, "", errors_New ("User " +:+ callerId +:+
                 "does not have rights to access salesContract with id " +:+ maId))
  | [] => ret (ma, "", errors_New "Could not GetSalesContract. Invalid input")
  end.

Definition SaveSalesContract (ma : SalesContract) (id : string) : M (bytes * error) :=
  let bytes := Marshal ma in
  let '(scKey, err) := GetStateKey id SALESCONTRACT in
  let* err := PutState scKey bytes in
  if err is Some e then ret ("", Some e) else
  ret (bytes, None).

Definition UpdateSalesContract (callerId : string) (callerAffiliation : Z)
    (args : list string) : M (bytes * error) :=
  match args with
  | id :: args1 :: _ =>
    let* (ma, _, err) := GetSalesContract callerId callerAffiliation [id] in
    if err is Some e then ret ("", Some e) else
    if String.eqb callerId (SC_SellerId ma) || String.eqb callerId (SC_BuyerId ma) then
      let '(updates, err) := Unmarshal (A := SCUpdateSchema) args1 in
      if err is Some e then ret ("", Some e) else
      let logs : list string := [] in
      let status := strings_TrimSpace (SCU_Status updates) in
      let '(ma, logs) :=
        if 0 <? len status then
          let currentStatus := SC_Status ma in
          (SC_set_Status ma status,
           logs ++ ["changed status from " +:+ currentStatus +:+ " to " +:+ status +:+ ""])
        else (ma, logs) in
      let bs := strings_TrimSpace (SCU_BuyerSignature updates) in
      let '(ma, logs) :=
        if 0 <? len bs then
          (SC_set_BuyerSignature ma bs, logs ++ ["Buyer: " +:+ SC_BuyerId ma +:+ " Signed"])
        else (ma, logs) in
      let ss := strings_TrimSpace (SCU_SellerSignature updates) in
      let '(ma, logs) :=
        if 0 <? len ss then
          (SC_set_SellerSignature ma ss, logs ++ ["Seller: " +:+ SC_SellerId ma +:+ " Signed"])
        else (ma, logs) in
      let price := SCU_Price updates in
      let '(ma, logs) :=
        if negb (price =? 0) then
          (SC_set_Price ma price, logs ++ ["Price updated to: " +:+ strconv_Itoa price])
        else (ma, logs) in
      let* (bytes, err) := SaveSalesContract ma id in
      if err is Some e then ret ("", Some e) else
      let msg := fold_left (fun msg log => msg +:+ " " +:+ log) logs "" in
      let* _ := AppendMALog "UpdateSalesContract" msg status id in
      ret (bytes, None)
    else ret ("", errors_New ("User with id " +:+ callerId +:+
                 "does not have rights to update the seller application"))
  | _ => ret ("", errors_New "Could not update salesContract. No parameters provided for update ")
  end.

(** *** Auditor queries *)

Definition GetAuditorMALogs (callerId : string) (callerAffiliation : Z)
    (args : list string) : M (bytes * error) :=
  match args with
  | args0 :: _ =>
    if negb (callerAffiliation =? AUDITOR_A)
    then ret ("", errors_New ("caller " +:+ callerId +:+
                              " does not have rights to access auditor logs"))
    else
    let '(key, _) := GetStateKey args0 MALOG in
    let* (lh, err) := GetMALogHolder key in
    if err is Some e then ret ("", Some e) else
    let maLogs := MALogs lh in
    let bytes := Marshal maLogs in
    ret (bytes, None)
  | [] => ret ("", errors_New "Mortgage Application ID missing")
  end.

Definition GetAuditorBCLogs (callerId : string) (callerAffiliation : Z)
    (args : list string) : M (bytes * error) :=
  if negb (callerAffiliation =? AUDITOR_A)
  then ret ("", errors_New ("caller " +:+ callerId +:+
                            " does not have rights to access auditor logs"))
  else
  let* (bcLogs, err) := GetBCLogs in
  if err is Some e then ret ("", Some e) else
  let bytes := Marshal bcLogs in
  ret (bytes, None).

End Chaincode.

(** ** A runnable library: JSON on an ASCII subset

    [GoJson] implements the fields of [GoLib] so that the chaincode can be
    evaluated on concrete requests.  It follows [encoding/json] on the
    inputs it accepts: objects, arrays, strings, integers, [true], [false]
    and [null], with insignificant white space; object keys select struct
    fields without regard to letter case, unknown keys are skipped, a
    repeated key is decoded over the earlier one, [null] leaves a field as
    it is, and a value of the wrong type leaves the field as it is and
    makes the call return an error.  Numbers with a fraction or an exponent
    and [\u] escapes above 7f are outside the subset and are rejected;
    strings are taken to be valid UTF-8.  [strings.TrimSpace] is implemented
    for ASCII white space. *)

Module GoJson.

#[local] Unset Elimination Schemes.
Inductive json :=
  | JNull
  | JBool (b : bool)
  | JNum (n : Z)
  | JStr (s : string)
  | JArr (l : list json)
  | JObj (l : list (string * json)).
#[local] Set Elimination Schemes.

Definition code (c : ascii) : Z := Z.of_nat (nat_of_ascii c).

Definition is_ws (c : ascii) : bool :=
  (code c =? 32) || (code c =? 9) || (code c =? 10) || (code c =? 13).

Definition is_digit (c : ascii) : bool := (48 <=? code c) && (code c <=? 57).

Fixpoint skip_ws (s : string) : string :=
  match s with
  | String c r => if is_ws c then skip_ws r else s
  | EmptyString => s
  end.

Definition hex_val (c : ascii) : option Z :=
  let n := code c in
  if (48 <=? n) && (n <=? 57) then Some (n - 48)
  else if (97 <=? n) && (n <=? 102) then Some (n - 87)
  else if (65 <=? n) && (n <=? 70) then Some (n - 55)
  else None.

Definition char_of (n : Z) : ascii := ascii_of_nat (Z.to_nat n).

(** The character an escape stands for, after the backslash. *)
Definition unescape (e : ascii) : option ascii :=
  let n := code e in
  if n =? 34 then Some (char_of 34)
  else if n =? 92 then Some (char_of 92)
  else if n =? 47 then Some (char_of 47)
  else if n =? 98 then Some (char_of 8)
  else if n =? 102 then Some (char_of 12)
  else if n =? 110 then Some (char_of 10)
  else if n =? 114 then Some (char_of 13)
  else if n =? 116 then Some (char_of 9)
  else None.

(** The characters of a string literal after its opening quote, up to the
    closing one. *)
Fixpoint parse_chars (s : string) : option (string * string) :=
  match s with
  | EmptyString => None
  | String c r =>
    if code c =? 34 then Some ("", r)
    else if code c =? 92 then
      match r with
      | String e r' =>
        if code e =? 117 then
          match r' with
          | String h1 (String h2 (String h3 (String h4 r''))) =>
            match hex_val h1, hex_val h2, hex_val h3, hex_val h4 with
            | Some 0, Some 0, Some a, Some b =>
              if a <? 8 then
                match parse_chars r'' with
                | Some (t, rest) => Some (String (char_of (16 * a + b)) t, rest)
                | None => None
                end
              else None
            | _, _, _, _ => None
            end
          | _ => None
          end
        else
          match unescape e with
          | Some c' =>
            match parse_chars r' with
            | Some (t, rest) => Some (String c' t, rest)
            | None => None
            end
          | None => None
          end
      | EmptyString => None
      end
    else if code c <? 32 then None
    else
      match parse_chars r with
      | Some (t, rest) => Some (String c t, rest)
      | None => None
      end
  end.

Fixpoint parse_digits (s : string) (acc : Z) : Z * string :=
  match s with
  | String c r => if is_digit c then parse_digits r (10 * acc + (code c - 48)) else (acc, s)
  | EmptyString => (acc, s)
  end.

(** An integer literal: no leading zero, no fraction, no exponent. *)
Definition parse_nat (s : string) : option (Z * string) :=
  match s with
  | String c r =>
    if is_digit c then
      let '(n, rest) := if code c =? 48 then (0, r) else parse_digits s 0 in
      match rest with
      | String d _ =>
        if is_digit d || (code d =? 46) || (code d =? 101) || (code d =? 69)
        then None else Some (n, rest)
      | EmptyString => Some (n, rest)
      end
    else None
  | EmptyString => None
  end.

Definition expect (word : string) (v : json) (s : string) : option (json * string) :=
  if String.prefix word s
  then Some (v, String.substring (String.length word) (String.length s - String.length word) s)
  else None.

Section Parse.
Variable parse_value : string -> option (json * string).

(** The elements of a non-empty array, after its opening bracket. *)
Fixpoint parse_elems (fuel : nat) (s : string) : option (list json * string) :=
  match fuel with
  | O => None
  | S fuel =>
    match parse_value s with
    | Some (v, r) =>
      match skip_ws r with
      | String c r' =>
        if code c =? 44 then
          match parse_elems fuel r' with
          | Some (vs, rest) => Some (v :: vs, rest)
          | None => None
          end
        else if code c =? 93 then Some ([v], r')
        else None
      | EmptyString => None
      end
    | None => None
    end
  end.

(** The members of a non-empty object, after its opening brace. *)
Fixpoint parse_members (fuel : nat) (s : string) : option (list (string * json) * string) :=
  match fuel with
  | O => None
  | S fuel =>
    match skip_ws s with
    | String q r =>
      if code q =? 34 then
        match parse_chars r with
        | Some (k, r) =>
          match skip_ws r with
          | String c r =>
            if code c =? 58 then
              match parse_value r with
              | Some (v, r) =>
                match skip_ws r with
                | String c r' =>
                  if code c =? 44 then
                    match parse_members fuel r' with
                    | Some (ms, rest) => Some ((k, v) :: ms, rest)
                    | None => None
                    end
                  else if code c =? 125 then Some ([(k, v)], r')
                  else None
                | EmptyString => None
                end
              | None => None
              end
            else None
          | EmptyString => None
          end
        | None => None
        end
      else None
    | EmptyString => None
    end
  end.

End Parse.

Fixpoint parse_value (fuel : nat) (s : string) : option (json * string) :=
  match fuel with
  | O => None
  | S fuel =>
    match skip_ws s with
    | String c r =>
      if code c =? 123 then
        match skip_ws r with
        | String c2 r2 =>
          if code c2 =? 125 then Some (JObj [], r2)
          else
            match parse_members (parse_value fuel) fuel r with
            | Some (ms, rest) => Some (JObj ms, rest)
            | None => None
            end
        | EmptyString => None
        end
      else if code c =? 91 then
        match skip_ws r with
        | String c2 r2 =>
          if code c2 =? 93 then Some (JArr [], r2)
          else
            match parse_elems (parse_value fuel) fuel r with
            | Some (vs, rest) => Some (JArr vs, rest)
            | None => None
            end
        | EmptyString => None
        end
      else if code c =? 34 then
        match parse_chars r with
        | Some (t, rest) => Some (JStr t, rest)
        | None => None
        end
      else if code c =? 45 then
        match parse_nat r with
        | Some (n, rest) => Some (JNum (- n), rest)
        | None => None
        end
      else if is_digit c then
        match parse_nat (String c r) with
        | Some (n, rest) => Some (JNum n, rest)
        | None => None
        end
      else if code c =? 116 then expect "rue" (JBool true) r
      else if code c =? 102 then expect "alse" (JBool false) r
      else if code c =? 110 then expect "ull" JNull r
      else None
    | EmptyString => None
    end
  end.

(** A whole document: one value and nothing but white space after it. *)
Definition parse (s : string) : option json :=
  match parse_value (S (String.length s)) s with
  | Some (v, rest) => if String.eqb (skip_ws rest) "" then Some v else None
  | None => None
  end.

(** *** Decoding into the structs

    A decoder takes the JSON value and the current content of the variable
    and returns the new content and whether a type error occurred. *)

Definition dec (A : Type) := json -> A -> A * bool.

Definition dec_string : dec string := fun j a =>
  match j with
  | JStr s => (s, false)
  | JNull => (a, false)
  | _ => (a, true)
  end.

(** Go's [int] has 64 bits on the platforms the chaincode runs on. *)
Definition dec_int : dec Z := fun j a =>
  match j with
  | JNum n => if (- 2 ^ 63 <=? n) && (n <? 2 ^ 63) then (n, false) else (a, true)
  | JNull => (a, false)
  | _ => (a, true)
  end.

Definition dec_slice {A} (d : dec A) (zero : A) : dec (slice A) := fun j a =>
  match j with
  | JArr l => (Some (map (fun e => fst (d e zero)) l), existsb (fun e => snd (d e zero)) l)
  | JNull => (None, false)
  | _ => (a, true)
  end.

Definition to_lower (c : ascii) : ascii :=
  if (65 <=? code c) && (code c <=? 90) then char_of (code c + 32) else c.

Fixpoint lower (s : string) : string :=
  match s with
  | String c r => String (to_lower c) (lower r)
  | EmptyString => EmptyString
  end.

(** The field called [name], decoded from every member whose key matches. *)
Definition field {A} (d : dec A) (name : string) (l : list (string * json)) (a : A) : A * bool :=
  fold_left (fun acc m =>
               if String.eqb (lower name) (lower (fst m))
               then let '(a', e') := d (snd m) (fst acc) in (a', snd acc || e')
               else acc) l (a, false).

Definition dec_PersonalInfo : dec PersonalInfo := fun j a =>
  match j with
  | JObj l =>
    let f1 := field dec_string "firstname" l (PI_Firstname a) in
    let f2 := field dec_string "lastname" l (PI_Lastname a) in
    let f3 := field dec_string "dob" l (PI_DOB a) in
    let f4 := field dec_string "phone" l (PI_Phone a) in
    let f5 := field dec_string "mobile" l (PI_Mobile a) in
    let f6 := field dec_string "email" l (PI_Email a) in
    ({| PI_Firstname := fst f1; PI_Lastname := fst f2; PI_DOB := fst f3; PI_Phone := fst f4;
        PI_Mobile := fst f5; PI_Email := fst f6 |},
     snd f1 || snd f2 || snd f3 || snd f4 || snd f5 || snd f6)
  | JNull => (a, false)
  | _ => (a, true)
  end.

Definition dec_FinancialInfo : dec FinancialInfo := fun j a =>
  match j with
  | JObj l =>
    let f1 := field dec_int "monthlySalary" l (FI_MonthlySalary a) in
    let f2 := field dec_int "otherIncome" l (FI_OtherIncome a) in
    let f3 := field dec_int "otherExpenditure" l (FI_OtherExpenditure a) in
    let f4 := field dec_int "monthlyRent" l (FI_MonthlyRent a) in
    let f5 := field dec_int "monthlyLoanPayment" l (FI_MonthlyLoanPayment a) in
    ({| FI_MonthlySalary := fst f1; FI_OtherIncome := fst f2; FI_OtherExpenditure := fst f3;
        FI_MonthlyRent := fst f4; FI_MonthlyLoanPayment := fst f5 |},
     snd f1 || snd f2 || snd f3 || snd f4 || snd f5)
  | JNull => (a, false)
  | _ => (a, true)
  end.

Definition dec_MortgageApplication : dec MortgageApplication := fun j a =>
  match j with
  | JObj l =>
    let f1 := field dec_string "id" l (MA_ID a) in
    let f2 := field dec_string "propertyId" l (MA_PropertyId a) in
    let f3 := field dec_string "landId" l (MA_LandId a) in
    let f4 := field dec_string "permitId" l (MA_PermitId a) in
    let f5 := field dec_string "buyerId" l (MA_BuyerId a) in
    let f6 := field dec_string "appraiserApplicationId" l (MA_AppraisalApplicationId a) in
    let f7 := field dec_string "salesContractId" l (MA_SalesContractId a) in
    let f8 := field dec_PersonalInfo "personalInfo" l (MA_PersonalInfo a) in
    let f9 := field dec_FinancialInfo "financialInfo" l (MA_FinancialInfo a) in
    let f10 := field dec_string "status" l (MA_Status a) in
    let f11 := field dec_int "requestedAmount" l (MA_RequestedAmount a) in
    let f12 := field dec_int "fairMarketValue" l (MA_FairMarketValue a) in
    let f13 := field dec_int "approvedAmount" l (MA_ApprovedAmount a) in
    let f14 := field dec_string "reviewerId" l (MA_ReviewerId a) in
    let f15 := field dec_string "lastModifiedDate" l (MA_LastModifiedDate a) in
    ({| MA_ID := fst f1; MA_PropertyId := fst f2; MA_LandId := fst f3; MA_PermitId := fst f4;
        MA_BuyerId := fst f5; MA_AppraisalApplicationId := fst f6; MA_SalesContractId := fst f7;
        MA_PersonalInfo := fst f8; MA_FinancialInfo := fst f9; MA_Status := fst f10;
        MA_RequestedAmount := fst f11; MA_FairMarketValue := fst f12;
        MA_ApprovedAmount := fst f13; MA_ReviewerId := fst f14;
        MA_LastModifiedDate := fst f15 |},
     snd f1 || snd f2 || snd f3 || snd f4 || snd f5 || snd f6 || snd f7 || snd f8 || snd f9
     || snd f10 || snd f11 || snd f12 || snd f13 || snd f14 || snd f15)
  | JNull => (a, false)
  | _ => (a, true)
  end.

Definition dec_SalesContract : dec SalesContract := fun j a =>
  match j with
  | JObj l =>
    let f1 := field dec_string "id" l (SC_ID a) in
    let f2 := field dec_string "propertyId" l (SC_PropertyId a) in
    let f3 := field dec_string "buyerId" l (SC_BuyerId a) in
    let f4 := field dec_string "sellerId" l (SC_SellerId a) in
    let f5 := field dec_string "reviewerId" l (SC_ReviewerId a) in
    let f6 := field dec_string "buyerSignature" l (SC_BuyerSignature a) in
    let f7 := field dec_string "sellerSignature" l (SC_SellerSignature a) in
    let f8 := field dec_string "status" l (SC_Status a) in
    let f9 := field dec_int "price" l (SC_Price a) in
    let f10 := field dec_string "lastModifiedDate" l (SC_LastModifiedDate a) in
    ({| SC_ID := fst f1; SC_PropertyId := fst f2; SC_BuyerId := fst f3; SC_SellerId := fst f4;
        SC_ReviewerId := fst f5; SC_BuyerSignature := fst f6; SC_SellerSignature := fst f7;
        SC_Status := fst f8; SC_Price := fst f9; SC_LastModifiedDate := fst f10 |},
     snd f1 || snd f2 || snd f3 || snd f4 || snd f5 || snd f6 || snd f7 || snd f8 || snd f9
     || snd f10)
  | JNull => (a, false)
  | _ => (a, true)
  end.

Definition dec_AppraiserApplication : dec AppraiserApplication := fun j a =>
  match j with
  | JObj l =>
    let f1 := field dec_string "id" l (AA_ID a) in
    let f2 := field dec_string "mortgageApplicationId" l (AA_MortgageApplicationId a) in
    let f3 := field dec_string "appraiserId" l (AA_AppraiserId a) in
    let f4 := field dec_string "reviewerId" l (AA_ReviewerId a) in
    let f5 := field dec_string "propertyId" l (AA_PropertyId a) in
    let f6 := field dec_string "status" l (AA_Status a) in
    let f7 := field dec_int "fairMarketValue" l (AA_FairMarketValue a) in
    let f8 := field dec_string "lastModifiedDate" l (AA_LastModifiedDate a) in
    ({| AA_ID := fst f1; AA_MortgageApplicationId := fst f2; AA_AppraiserId := fst f3;
        AA_ReviewerId := fst f4; AA_PropertyId := fst f5; AA_Status := fst f6;
        AA_FairMarketValue := fst f7; AA_LastModifiedDate := fst f8 |},
     snd f1 || snd f2 || snd f3 || snd f4 || snd f5 || snd f6 || snd f7 || snd f8)
  | JNull => (a, false)
  | _ => (a, true)
  end.

Definition dec_Buyer : dec Buyer := fun j a =>
  match j with
  | JObj l =>
    let f1 := field dec_string "id" l (Buyer_ID a) in
    let f2 := field dec_int "affiliation" l (Buyer_Affiliation a) in
    let f3 := field (dec_slice dec_string "") "mortgageApplications" l (Buyer_MortgageApplications a) in
    let f4 := field (dec_slice dec_string "") "salesContracts" l (Buyer_SalesContracts a) in
    ({| Buyer_ID := fst f1; Buyer_Affiliation := fst f2; Buyer_MortgageApplications := fst f3;
        Buyer_SalesContracts := fst f4 |},
     snd f1 || snd f2 || snd f3 || snd f4)
  | JNull => (a, false)
  | _ => (a, true)
  end.

Definition dec_Bank : dec Bank := fun j a =>
  match j with
  | JObj l =>
    let f1 := field dec_string "id" l (Bank_ID a) in
    let f2 := field dec_int "affiliation" l (Bank_Affiliation a) in
    let f3 := field (dec_slice dec_string "") "mortgageApplications" l (Bank_MortgageApplications a) in
    let f4 := field (dec_slice dec_string "") "salesContracts" l (Bank_SalesContracts a) in
    ({| Bank_ID := fst f1; Bank_Affiliation := fst f2; Bank_MortgageApplications := fst f3;
        Bank_SalesContracts := fst f4 |},
     snd f1 || snd f2 || snd f3 || snd f4)
  | JNull => (a, false)
  | _ => (a, true)
  end.

Definition dec_Seller : dec Seller := fun j a =>
  match j with
  | JObj l =>
    let f1 := field dec_string "id" l (Seller_ID a) in
    let f2 := field dec_int "affiliation" l (Seller_Affiliation a) in
    let f3 := field (dec_slice dec_string "") "salesContracts" l (Seller_SalesContracts a) in
    ({| Seller_ID := fst f1; Seller_Affiliation := fst f2; Seller_SalesContracts := fst f3 |},
     snd f1 || snd f2 || snd f3)
  | JNull => (a, false)
  | _ => (a, true)
  end.

Definition dec_Appraiser : dec Appraiser := fun j a =>
  match j with
  | JObj l =>
    let f1 := field dec_string "id" l (Appraiser_ID a) in
    let f2 := field dec_int "affiliation" l (Appraiser_Affiliation a) in
    let f3 := field (dec_slice dec_string "") "appraiserApplications" l
                (Appraiser_AppraiserApplications a) in
    ({| Appraiser_ID := fst f1; Appraiser_Affiliation := fst f2;
        Appraiser_AppraiserApplications := fst f3 |},
     snd f1 || snd f2 || snd f3)
  | JNull => (a, false)
  | _ => (a, true)
  end.

Definition dec_MAUpdateSchema : dec MAUpdateSchema := fun j a =>
  match j with
  | JObj l =>
    let f1 := field dec_string "status" l (MAU_Status a) in
    let f2 := field dec_string "salesContractId" l (MAU_SalesContractId a) in
    let f3 := field dec_int "fairMarketValue" l (MAU_FairMarketValue a) in
    let f4 := field dec_int "approvedAmount" l (MAU_ApprovedAmount a) in
    ({| MAU_Status := fst f1; MAU_SalesContractId := fst f2; MAU_FairMarketValue := fst f3;
        MAU_ApprovedAmount := fst f4 |},
     snd f1 || snd f2 || snd f3 || snd f4)
  | JNull => (a, false)
  | _ => (a, true)
  end.

Definition dec_AAUpdateSchema : dec AAUpdateSchema := fun j a =>
  match j with
  | JObj l =>
    let f1 := field dec_string "status" l (AAU_Status a) in
    let f2 := field dec_int "fairMarketValue" l (AAU_FairMarketValue a) in
    ({| AAU_Status := fst f1; AAU_FairMarketValue := fst f2 |}, snd f1 || snd f2)
  | JNull => (a, false)
  | _ => (a, true)
  end.

Definition dec_SCUpdateSchema : dec SCUpdateSchema := fun j a =>
  match j with
  | JObj l =>
    let f1 := field dec_string "status" l (SCU_Status a) in
    let f2 := field dec_string "buyerSignature" l (SCU_BuyerSignature a) in
    let f3 := field dec_string "sellerSignature" l (SCU_SellerSignature a) in
    let f4 := field dec_int "price" l (SCU_Price a) in
    ({| SCU_Status := fst f1; SCU_BuyerSignature := fst f2; SCU_SellerSignature := fst f3;
        SCU_Price := fst f4 |},
     snd f1 || snd f2 || snd f3 || snd f4)
  | JNull => (a, false)
  | _ => (a, true)
  end.

Definition zero_MALog : MALog :=
  {| Log_MortgageApplicationId := ""; Log_BuyerId := ""; Log_ReviewerId := ""; Log_Status := "";
     Log_Action := ""; Log_Text := ""; Log_Timestamp := "" |}.

Definition dec_MALog : dec MALog := fun j a =>
  match j with
  | JObj l =>
    let f1 := field dec_string "mortgageApplicationId" l (Log_MortgageApplicationId a) in
    let f2 := field dec_string "buyerId" l (Log_BuyerId a) in
    let f3 := field dec_string "reviewerId" l (Log_ReviewerId a) in
    let f4 := field dec_string "status" l (Log_Status a) in
    let f5 := field dec_string "action" l (Log_Action a) in
    let f6 := field dec_string "text" l (Log_Text a) in
    let f7 := field dec_string "timestamp" l (Log_Timestamp a) in
    ({| Log_MortgageApplicationId := fst f1; Log_BuyerId := fst f2; Log_ReviewerId := fst f3;
        Log_Status := fst f4; Log_Action := fst f5; Log_Text := fst f6;
        Log_Timestamp := fst f7 |},
     snd f1 || snd f2 || snd f3 || snd f4 || snd f5 || snd f6 || snd f7)
  | JNull => (a, false)
  | _ => (a, true)
  end.

Definition dec_MALogHolder : dec MALogHolder := fun j a =>
  match j with
  | JObj l =>
    let f1 := field (dec_slice dec_MALog zero_MALog) "MALogs" l (MALogs a) in
    ({| MALogs := fst f1 |}, snd f1)
  | JNull => (a, false)
  | _ => (a, true)
  end.

(** [json.Unmarshal(data, &v)] for a freshly declared [v]: a syntax error
    leaves [v] at its zero value. *)
Definition unmarshal {A} (d : dec A) (zero : A) (data : bytes) : A * error :=
  match parse data with
  | None => (zero, errors_New "invalid character or unexpected end of JSON input")
  | Some j =>
    let '(v, e) := d j zero in
    (v, if e then errors_New "json: cannot unmarshal value into Go value" else None)
  end.

(** *** Encoding *)

Definition hex_digit (n : Z) : ascii :=
  if n <? 10 then char_of (48 + n) else char_of (87 + n).

Definition backslash : string := String (char_of 92) "".

(** [encoding/json] escapes the quote, the backslash, the control characters
    and, for HTML safety, the characters [<], [>] and [&]. *)
Definition escape_char (c : ascii) : string :=
  let n := code c in
  if n =? 34 then backslash +:+ dquote
  else if n =? 92 then backslash +:+ backslash
  else if n =? 10 then backslash +:+ "n"
  else if n =? 13 then backslash +:+ "r"
  else if n =? 9 then backslash +:+ "t"
  else if (n <? 32) || (n =? 60) || (n =? 62) || (n =? 38)
  then backslash +:+ "u00" +:+ String (hex_digit (n / 16)) (String (hex_digit (n mod 16)) "")
  else String c "".

Fixpoint escape (s : string) : string :=
  match s with
  | String c r => escape_char c +:+ escape r
  | EmptyString => EmptyString
  end.

Definition enc_string (s : string) : string := dquote +:+ escape s +:+ dquote.

Definition enc_int (n : Z) : string := pretty n.

Fixpoint join (l : list string) : string :=
  match l with
  | [] => ""
  | [x] => x
  | x :: r => x +:+ "," +:+ join r
  end.

Definition enc_slice {A} (enc : A -> string) (s : slice A) : string :=
  match s with
  | None => "null"
  | Some l => "[" +:+ join (map enc l) +:+ "]"
  end.

Definition enc_object (members : list (string * string)) : string :=
  "{" +:+ join (map (fun m => enc_string (fst m) +:+ ":" +:+ snd m) members) +:+ "}".

Definition enc_PersonalInfo (a : PersonalInfo) : string :=
  enc_object [("firstname", enc_string (PI_Firstname a)); ("lastname", enc_string (PI_Lastname a));
              ("dob", enc_string (PI_DOB a)); ("phone", enc_string (PI_Phone a));
              ("mobile", enc_string (PI_Mobile a)); ("email", enc_string (PI_Email a))].

Definition enc_FinancialInfo (a : FinancialInfo) : string :=
  enc_object [("monthlySalary", enc_int (FI_MonthlySalary a));
              ("otherIncome", enc_int (FI_OtherIncome a));
              ("otherExpenditure", enc_int (FI_OtherExpenditure a));
              ("monthlyRent", enc_int (FI_MonthlyRent a));
              ("monthlyLoanPayment", enc_int (FI_MonthlyLoanPayment a))].

Definition enc_MortgageApplication (a : MortgageApplication) : string :=
  enc_object [("id", enc_string (MA_ID a)); ("propertyId", enc_string (MA_PropertyId a));
              ("landId", enc_string (MA_LandId a)); ("permitId", enc_string (MA_PermitId a));
              ("buyerId", enc_string (MA_BuyerId a));
              ("appraiserApplicationId", enc_string (MA_AppraisalApplicationId a));
              ("salesContractId", enc_string (MA_SalesContractId a));
              ("personalInfo", enc_PersonalInfo (MA_PersonalInfo a));
              ("financialInfo", enc_FinancialInfo (MA_FinancialInfo a));
              ("status", enc_string (MA_Status a));
              ("requestedAmount", enc_int (MA_RequestedAmount a));
              ("fairMarketValue", enc_int (MA_FairMarketValue a));
              ("approvedAmount", enc_int (MA_ApprovedAmount a));
              ("reviewerId", enc_string (MA_ReviewerId a));
              ("lastModifiedDate", enc_string (MA_LastModifiedDate a))].

Definition enc_SalesContract (a : SalesContract) : string :=
  enc_object [("id", enc_string (SC_ID a)); ("propertyId", enc_string (SC_PropertyId a));
              ("buyerId", enc_string (SC_BuyerId a)); ("sellerId", enc_string (SC_SellerId a));
              ("reviewerId", enc_string (SC_ReviewerId a));
              ("buyerSignature", enc_string (SC_BuyerSignature a));
              ("sellerSignature", enc_string (SC_SellerSignature a));
              ("status", enc_string (SC_Status a)); ("price", enc_int (SC_Price a));
              ("lastModifiedDate", enc_string (SC_LastModifiedDate a))].

Definition enc_AppraiserApplication (a : AppraiserApplication) : string :=
  enc_object [("id", enc_string (AA_ID a));
              ("mortgageApplicationId", enc_string (AA_MortgageApplicationId a));
              ("appraiserId", enc_string (AA_AppraiserId a));
              ("reviewerId", enc_string (AA_ReviewerId a));
              ("propertyId", enc_string (AA_PropertyId a));
              ("status", enc_string (AA_Status a));
              ("fairMarketValue", enc_int (AA_FairMarketValue a));
              ("lastModifiedDate", enc_string (AA_LastModifiedDate a))].

Definition enc_Buyer (a : Buyer) : string :=
  enc_object [("id", enc_string (Buyer_ID a)); ("affiliation", enc_int (Buyer_Affiliation a));
              ("mortgageApplications", enc_slice enc_string (Buyer_MortgageApplications a));
              ("salesContracts", enc_slice enc_string (Buyer_SalesContracts a))].

Definition enc_Bank (a : Bank) : string :=
  enc_object [("id", enc_string (Bank_ID a)); ("affiliation", enc_int (Bank_Affiliation a));
              ("mortgageApplications", enc_slice enc_string (Bank_MortgageApplications a));
              ("salesContracts", enc_slice enc_string (Bank_SalesContracts a))].

Definition enc_Seller (a : Seller) : string :=
  enc_object [("id", enc_string (Seller_ID a)); ("affiliation", enc_int (Seller_Affiliation a));
              ("salesContracts", enc_slice enc_string (Seller_SalesContracts a))].

Definition enc_Appraiser (a : Appraiser) : string :=
  enc_object [("id", enc_string (Appraiser_ID a));
              ("affiliation", enc_int (Appraiser_Affiliation a));
              ("appraiserApplications",
               enc_slice enc_string (Appraiser_AppraiserApplications a))].

Definition enc_MAUpdateSchema (a : MAUpdateSchema) : string :=
  enc_object [("status", enc_string (MAU_Status a));
              ("salesContractId", enc_string (MAU_SalesContractId a));
              ("fairMarketValue", enc_int (MAU_FairMarketValue a));
              ("approvedAmount", enc_int (MAU_ApprovedAmount a))].

Definition enc_AAUpdateSchema (a : AAUpdateSchema) : string :=
  enc_object [("status", enc_string (AAU_Status a));
              ("fairMarketValue", enc_int (AAU_FairMarketValue a))].

Definition enc_SCUpdateSchema (a : SCUpdateSchema) : string :=
  enc_object [("status", enc_string (SCU_Status a));
              ("buyerSignature", enc_string (SCU_BuyerSignature a));
              ("sellerSignature", enc_string (SCU_SellerSignature a));
              ("price", enc_int (SCU_Price a))].

Definition enc_MALog (a : MALog) : string :=
  enc_object [("mortgageApplicationId", enc_string (Log_MortgageApplicationId a));
              ("buyerId", enc_string (Log_BuyerId a));
              ("reviewerId", enc_string (Log_ReviewerId a));
              ("status", enc_string (Log_Status a)); ("action", enc_string (Log_Action a));
              ("text", enc_string (Log_Text a)); ("timestamp", enc_string (Log_Timestamp a))].

Definition enc_MALogHolder (a : MALogHolder) : string :=
  enc_object [("MALogs", enc_slice enc_MALog (MALogs a))].

(** *** [strings.TrimSpace] on ASCII white space *)

Definition is_space (c : ascii) : bool :=
  (code c =? 32) || ((9 <=? code c) && (code c <=? 13)).

Fixpoint trim_left (s : string) : string :=
  match s with
  | String c r => if is_space c then trim_left r else s
  | EmptyString => s
  end.

Fixpoint trim_right (s : string) : string :=
  match s with
  | String c r =>
    let r' := trim_right r in
    if is_space c && String.eqb r' "" then "" else String c r'
  | EmptyString => s
  end.

Definition TrimSpace (s : string) : string := trim_right (trim_left s).

(** *** The instance *)

Definition zero_Buyer : Buyer :=
  {| Buyer_ID := ""; Buyer_Affiliation := 0; Buyer_MortgageApplications := None;
     Buyer_SalesContracts := None |}.
Definition zero_Bank : Bank :=
  {| Bank_ID := ""; Bank_Affiliation := 0; Bank_MortgageApplications := None;
     Bank_SalesContracts := None |}.
Definition zero_Seller : Seller :=
  {| Seller_ID := ""; Seller_Affiliation := 0; Seller_SalesContracts := None |}.
Definition zero_Appraiser : Appraiser :=
  {| Appraiser_ID := ""; Appraiser_Affiliation := 0; Appraiser_AppraiserApplications := None |}.
Definition zero_MAUpdateSchema : MAUpdateSchema :=
  {| MAU_Status := ""; MAU_SalesContractId := ""; MAU_FairMarketValue := 0;
     MAU_ApprovedAmount := 0 |}.
Definition zero_AAUpdateSchema : AAUpdateSchema :=
  {| AAU_Status := ""; AAU_FairMarketValue := 0 |}.
Definition zero_SCUpdateSchema : SCUpdateSchema :=
  {| SCU_Status := ""; SCU_BuyerSignature := ""; SCU_SellerSignature := ""; SCU_Price := 0 |}.

(** The clock of the instance stands still. *)
Definition clock (n : nat) : string := "2016-11-01 10:00:00".

#[export] Instance lib : GoLib := {|
  strings_TrimSpace := TrimSpace;
  time_Format := clock;
  json_MortgageApplication :=
    {| Marshal := enc_MortgageApplication;
       Unmarshal := unmarshal dec_MortgageApplication zero_MortgageApplication |};
  json_SalesContract :=
    {| Marshal := enc_SalesContract;
       Unmarshal := unmarshal dec_SalesContract zero_SalesContract |};
  json_AppraiserApplication :=
    {| Marshal := enc_AppraiserApplication;
       Unmarshal := unmarshal dec_AppraiserApplication zero_AppraiserApplication |};
  json_Buyer := {| Marshal := enc_Buyer; Unmarshal := unmarshal dec_Buyer zero_Buyer |};
  json_Seller := {| Marshal := enc_Seller; Unmarshal := unmarshal dec_Seller zero_Seller |};
  json_Bank := {| Marshal := enc_Bank; Unmarshal := unmarshal dec_Bank zero_Bank |};
  json_Appraiser :=
    {| Marshal := enc_Appraiser; Unmarshal := unmarshal dec_Appraiser zero_Appraiser |};
  json_MAUpdateSchema :=
    {| Marshal := enc_MAUpdateSchema;
       Unmarshal := unmarshal dec_MAUpdateSchema zero_MAUpdateSchema |};
  json_AAUpdateSchema :=
    {| Marshal := enc_AAUpdateSchema;
       Unmarshal := unmarshal dec_AAUpdateSchema zero_AAUpdateSchema |};
  json_SCUpdateSchema :=
    {| Marshal := enc_SCUpdateSchema;
       Unmarshal := unmarshal dec_SCUpdateSchema zero_SCUpdateSchema |};
  json_keys :=
    {| Marshal := enc_slice enc_string; Unmarshal := unmarshal (dec_slice dec_string "") None |};
  json_MALogHolder :=
    {| Marshal := enc_MALogHolder;
       Unmarshal := unmarshal dec_MALogHolder {| MALogs := None |} |};
  json_logs :=
    {| Marshal := enc_slice enc_MALog;
       Unmarshal := unmarshal (dec_slice dec_MALog zero_MALog) None |}
|}.

(** Requests are written with apostrophes where JSON has double quotes. *)
Definition js (s : string) : string :=
  (fix go (s : string) : string :=
     match s with
     | String c r => String (if code c =? 39 then char_of 34 else c) (go r)
     | EmptyString => EmptyString
     end) s.

Definition empty_stub : ChaincodeStub := {| State := ∅; Clock := 0 |}.

End GoJson.

(** ** Vocabulary of the statements *)

(** [stub] after [stub.PutState(key, value)]. *)
Definition put (key : string) (value : bytes) (stub : ChaincodeStub) : ChaincodeStub :=
  {| State := <[key := value]> (State stub); Clock := Clock stub |}.

(** What the ledger holds under a key, as [GetState] reads it. *)
Definition stored (stub : ChaincodeStub) (key : string) : bytes :=
  default "" (State stub !! key).

(** The computation changes no ledger entry outside [ks]. *)
Definition writes_within {A} (ks : list string) (c : M A) : Prop :=
  forall stub k, k ∉ ks -> State (exec c stub) !! k = State stub !! k.

(** How often an id occurs in a list of ids. *)
Definition occurrences (id : string) (l : slice string) : nat :=
  count_occ String.string_dec (elems l) id.

(** The three kinds of document that have a [Create*] operation, and the
    routing of [Invoke] and [Query] to the operation of a kind. *)
Inductive DocKind := KMortgageApplication | KAppraiserApplication | KSalesContract.

Definition Create `{GoLib} (kind : DocKind) (callerId : string) (callerAffiliation : Z)
    (args : list string) : M (bytes * error) :=
  match kind with
  | KMortgageApplication => CreateMortgageApplication callerId callerAffiliation args
  | KAppraiserApplication => CreateAppraiserApplication callerId callerAffiliation args
  | KSalesContract => CreateSalesContract callerId callerAffiliation args
  end.

(** [Query] returns the bytes of the document, or the error. *)
Definition Get `{GoLib} (kind : DocKind) (callerId : string) (callerAffiliation : Z)
    (args : list string) : M (bytes * error) :=
  match kind with
  | KMortgageApplication =>
    bind (GetMortgageApplication callerId callerAffiliation args)
         (fun r => ret (if snd r is Some e then ("", Some e) else (snd (fst r), None)))
  | KAppraiserApplication =>
    bind (GetAppraiserApplication callerId callerAffiliation args)
         (fun r => ret (if snd r is Some e then ("", Some e) else (snd (fst r), None)))
  | KSalesContract =>
    bind (GetSalesContract callerId callerAffiliation args)
         (fun r => ret (if snd r is Some e then ("", Some e) else (snd (fst r), None)))
  end.

(** The role gate of [Create*]: any caller may submit a mortgage
    application, a bank creates appraiser applications, a buyer creates
    sales contracts. *)
Definition may_create (kind : DocKind) (callerAffiliation : Z) : Prop :=
  match kind with
  | KMortgageApplication => True
  | KAppraiserApplication => callerAffiliation = BANK_A
  | KSalesContract => callerAffiliation = BUYER_A
  end.

(** The body is a well-formed document of the kind, and the reader passes
    the access check of the kind's [Get*] on it. *)
Definition readable_by `{GoLib} (kind : DocKind) (body : bytes) (callerId : string)
    (callerAffiliation : Z) : Prop :=
  match kind with
  | KMortgageApplication =>
    exists ma, Unmarshal body = (ma, None) /\
      (callerId = MA_BuyerId ma \/ callerId = MA_ReviewerId ma \/ callerAffiliation = AUDITOR_A)
  | KAppraiserApplication =>
    exists aa, Unmarshal body = (aa, None) /\
      (callerId = AA_AppraiserId aa \/ callerId = AA_ReviewerId aa \/
       callerAffiliation = AUDITOR_A)
  | KSalesContract =>
    exists sc, Unmarshal body = (sc, None) /\
      (callerId = SC_SellerId sc \/ callerId = SC_BuyerId sc \/ callerAffiliation = AUDITOR_A \/
       callerAffiliation = BANK_A)
  end.

(** The registry list under [keysName] is absent or decodes, so that
    [AddKey] can extend it. *)
Definition keys_readable `{GoLib} (stub : ChaincodeStub) (keysName : string) : Prop :=
  len (stored stub keysName) = 0 \/
  snd (Unmarshal (A := slice string) (stored stub keysName)) = None.


(** The ledger key of a document. *)
Definition docKey (kind : DocKind) (id : string) : string :=
  match kind with
  | KMortgageApplication => typeMortgageApplication +:+ id
  | KAppraiserApplication => typeAppraiserApplication +:+ id
  | KSalesContract => typeSalesContract +:+ id
  end.

(** The list [AddKey] extends: empty when nothing is stored under the name. *)
Definition keys_read `{GoLib} (stub : ChaincodeStub) (keysName : string) : slice string :=
  if len (stored stub keysName) =? 0 then Some []
  else fst (Unmarshal (A := slice string) (stored stub keysName)).

(** ** A run of the chaincode

    Requests of a small session on the library [GoJson]: Alice, a buyer,
    submits mortgage application [ma1] to [bank1]; [bank1] asks the
    appraiser Eve for an appraisal [aa1] of it; Alice drafts sales contract
    [sc1] with the seller Dave.  In [ledger4] there is also an application
    [ma2] whose reviewer is Eve herself, with its appraisal [aa2]. *)

Module Scenario.
Import GoJson.

Definition ma1_body : string :=
  js "{'id':'ma1','propertyId':'property1','buyerId':'alice','reviewerId':'bank1','status':'Submitted','requestedAmount':400000}".

Definition aa1_body : string :=
  js "{'id':'aa1','mortgageApplicationId':'ma1','appraiserId':'eve','reviewerId':'bank1','propertyId':'property1','status':'Requested'}".

Definition sc1_body : string :=
  js "{'id':'sc1','propertyId':'property1','buyerId':'alice','sellerId':'dave','reviewerId':'bank1','status':'Drafted','price':450000}".

Definition ma2_body : string :=
  js "{'id':'ma2','propertyId':'property2','buyerId':'alice','reviewerId':'eve','status':'Submitted','requestedAmount':300000}".

Definition aa2_body : string :=
  js "{'id':'aa2','mortgageApplicationId':'ma2','appraiserId':'eve','reviewerId':'bank1','propertyId':'property2','status':'Requested'}".

Definition ledger1 : ChaincodeStub :=
  exec (CreateMortgageApplication "alice" BUYER_A ["ma1"; ma1_body]) empty_stub.

Definition ledger2 : ChaincodeStub :=
  exec (CreateAppraiserApplication "bank1" BANK_A ["aa1"; aa1_body]) ledger1.

Definition ledger3 : ChaincodeStub :=
  exec (CreateSalesContract "alice" BUYER_A ["sc1"; sc1_body]) ledger2.

Definition ledger4 : ChaincodeStub :=
  exec (CreateAppraiserApplication "bank1" BANK_A ["aa2"; aa2_body])
    (exec (CreateMortgageApplication "alice" BUYER_A ["ma2"; ma2_body]) ledger3).

(** The documents the bodies decode to. *)
Definition ma1 : MortgageApplication := fst (Unmarshal ma1_body).
Definition aa1 : AppraiserApplication := fst (Unmarshal aa1_body).
Definition sc1 : SalesContract := fst (Unmarshal sc1_body).
Definition ma2 : MortgageApplication := fst (Unmarshal ma2_body).
Definition aa2 : AppraiserApplication := fst (Unmarshal aa2_body).

(** Partial updates: one that sets nothing, one with a status only, one
    with a fair market value. *)
Definition sc_nothing : string :=
  js "{'status':'','buyerSignature':'','sellerSignature':'','price':0}".
Definition aa_nothing : string := js "{'status':'  ','fairMarketValue':0}".
Definition ma_nothing : string :=
  js "{'status':' ','salesContractId':'','fairMarketValue':0,'approvedAmount':0}".
Definition ma_status_only : string := js "{'status':' Approved '}".
Definition aa_value : string := js "{'fairMarketValue':500000}".

End Scenario.

(** * Properties *)

(** ** Key namespace *)

Ltac split_kind k :=
  unfold GetStateKey;
  repeat match goal with
         | |- context [k =? ?c] => destruct (Z.eqb_spec k c); [subst k |]
         end.

(** C1. [GetStateKey] never maps two different kinds to the same ledger key:
    whenever it yields a key for [(id1, k1)] and for [(id2, k2)] and the kinds
    [k1] and [k2] differ, the two keys differ, whatever the ids are. *)
Theorem GetStateKey_injective_across_kinds (id1 id2 : string) (k1 k2 : Z) (key1 key2 : string) :
  k1 <> k2 ->
  GetStateKey id1 k1 = (key1, None) ->
  GetStateKey id2 k2 = (key2, None) ->
  key1 <> key2.
Proof.
  intros Hk H1 H2 Heq. subst key2.
  revert H1 H2. split_kind k1; split_kind k2;
    intros H1 H2; try discriminate; try (exfalso; apply Hk; reflexivity);
    rewrite <- H1 in H2; try discriminate.
Qed.

Lemma GetStateKey_injective_across_kinds_witness :
  fst (GetStateKey "7" MORTGAGEAPPLICATION) <> fst (GetStateKey "7" MALOG).
Proof.
  apply (GetStateKey_injective_across_kinds "7" "7" MORTGAGEAPPLICATION MALOG);
    [discriminate | reflexivity | reflexivity].
Defined.

(** ** The state monad *)

Section Frames.
Context `{GoLib}.
Local Open Scope go_scope.

Lemma exec_bind {A B} (c : M A) (k : A -> M B) stub :
  exec (bind c k) stub = exec (k (eval c stub)) (exec c stub).
Proof. unfold exec, eval, bind. destruct (c stub); reflexivity. Qed.

Lemma eval_bind {A B} (c : M A) (k : A -> M B) stub :
  eval (bind c k) stub = eval (k (eval c stub)) (exec c stub).
Proof. unfold exec, eval, bind. destruct (c stub); reflexivity. Qed.

Lemma run_eq {A} (c : M A) stub : c stub = (eval c stub, exec c stub).
Proof. unfold exec, eval. destruct (c stub); reflexivity. Qed.

Lemma ww_ret {A} ks (a : A) : writes_within ks (ret a).
Proof. intros stub k _. reflexivity. Qed.

Lemma ww_bind {A B} ks (c : M A) (k : A -> M B) :
  writes_within ks c -> (forall a, writes_within ks (k a)) -> writes_within ks (bind c k).
Proof.
  intros Hc Hk stub key Hkey. rewrite exec_bind, (Hk _ _ _ Hkey). apply Hc, Hkey.
Qed.

Lemma ww_GetState ks key : writes_within ks (GetState key).
Proof. intros stub k _. reflexivity. Qed.

Lemma ww_time_Now ks : writes_within ks time_Now.
Proof. intros stub k _. reflexivity. Qed.

Lemma ww_PutState ks key value : key ∈ ks -> writes_within ks (PutState key value).
Proof.
  intros Hin stub k Hk. unfold exec, PutState; simpl.
  apply lookup_insert_ne. intros ->. contradiction.
Qed.

Lemma ww_mono {A} ks ks' (c : M A) : ks ⊆ ks' -> writes_within ks c -> writes_within ks' c.
Proof. intros Hsub Hc stub k Hk. apply Hc. intros Hin. apply Hk, Hsub, Hin. Qed.

End Frames.

(** A key is one of the listed ones. *)
Ltac key_in :=
  solve [repeat first [assumption | apply list_elem_of_here | apply list_elem_of_further]].

Ltac ww_step :=
  first
    [ apply ww_ret
    | apply ww_GetState
    | apply ww_time_Now
    | apply ww_PutState; key_in
    | apply ww_bind; [| intros ?]
    | match goal with
      | |- writes_within _ (match ?x with _ => _ end) => destruct x
      end ].

Ltac ww := repeat ww_step.

Section FramesOps.
Context `{GoLib}.
Local Open Scope go_scope.

Lemma ww_AddKey ks id keysName : maKeysName ∈ ks -> writes_within ks (AddKey id keysName).
Proof. intros. unfold AddKey. ww. Qed.

Lemma ww_GetBuyer ks id : id ∈ ks -> writes_within ks (GetBuyer id).
Proof. intros. unfold GetBuyer. ww. Qed.
Lemma ww_SaveBuyer ks b id : id ∈ ks -> writes_within ks (SaveBuyer b id).
Proof. intros. unfold SaveBuyer. ww. Qed.
Lemma ww_GetBank ks id : id ∈ ks -> writes_within ks (GetBank id).
Proof. intros. unfold GetBank. ww. Qed.
Lemma ww_SaveBank ks b id : id ∈ ks -> writes_within ks (SaveBank b id).
Proof. intros. unfold SaveBank. ww. Qed.
Lemma ww_GetSeller ks id : id ∈ ks -> writes_within ks (GetSeller id).
Proof. intros. unfold GetSeller. ww. Qed.
Lemma ww_SaveSeller ks b id : id ∈ ks -> writes_within ks (SaveSeller b id).
Proof. intros. unfold SaveSeller. ww. Qed.
Lemma ww_GetAppraiser ks id : id ∈ ks -> writes_within ks (GetAppraiser id).
Proof. intros. unfold GetAppraiser. ww. Qed.
Lemma ww_SaveAppraiser ks b id : id ∈ ks -> writes_within ks (SaveAppraiser b id).
Proof. intros. unfold SaveAppraiser. ww. Qed.

Lemma ww_AppendMALog ks action text status id :
  typeMALog +:+ id ∈ ks -> maLogKeysName ∈ ks -> bcLogsKey ∈ ks ->
  writes_within ks (AppendMALog action text status id).
Proof.
  intros. unfold AppendMALog, GetMALogHolder, SaveMALogHolder, GetMALogKeys, SaveMALogKeys,
    GetBCLogs, SaveBCLogs. ww.
Qed.

End FramesOps.

Section Reads.
Context `{GoLib}.
Local Open Scope go_scope.

Lemma bind_step {A B} (c : M A) (k : A -> M B) stub a stub' :
  c stub = (a, stub') -> bind c k stub = k a stub'.
Proof. intros E. unfold bind. rewrite E. reflexivity. Qed.

Lemma GetState_run key stub : GetState key stub = ((stored stub key, None), stub).
Proof. reflexivity. Qed.

Lemma PutState_run key value stub : PutState key value stub = (None, put key value stub).
Proof. reflexivity. Qed.

Lemma GetMortgageApplication_run stub callerId aff id ma :
  Unmarshal (stored stub (typeMortgageApplication +:+ id)) = (ma, None) ->
  GetMortgageApplication callerId aff [id] stub =
  (if String.eqb callerId (MA_BuyerId ma) || String.eqb callerId (MA_ReviewerId ma)
      || (aff =? AUDITOR_A)
   then (ma, stored stub (typeMortgageApplication +:+ id), None)
   else (ma, "", errors_New ("User " +:+ callerId +:+
           "does not have rights to access mortgageApplication with id " +:+ id)),
   stub).
Proof.
  intros Hma. unfold GetMortgageApplication.
  change (GetStateKey id MORTGAGEAPPLICATION) with (typeMortgageApplication +:+ id, @None string).
  cbv iota beta.
  rewrite (bind_step _ _ _ _ _ (GetState_run _ _)).
  rewrite Hma.
  destruct (_ || _); reflexivity.
Qed.

End Reads.

Lemma append_inj_l (p a b : string) : p +:+ a = p +:+ b -> a = b.
Proof. induction p as [| c p IH]; simpl; intros E; [exact E | injection E; exact IH]. Qed.

(** Two ledger keys differ: by their prefixes, or by their ids under the
    same prefix. *)
Ltac key_ne :=
  let E := fresh "E" in
  intros E; first [discriminate E | apply append_inj_l in E; congruence].

Ltac notin :=
  rewrite ?not_elem_of_cons; repeat split;
  try apply not_elem_of_nil;
  try key_ne.

Section Run.
Context `{GoLib}.
Local Open Scope go_scope.

Lemma exec_ret {A} (a : A) stub : exec (ret a) stub = stub.
Proof. reflexivity. Qed.
Lemma eval_ret {A} (a : A) stub : eval (ret a) stub = a.
Proof. reflexivity. Qed.
Lemma exec_GetState key stub : exec (GetState key) stub = stub.
Proof. reflexivity. Qed.
Lemma eval_GetState key stub : eval (GetState key) stub = (stored stub key, None).
Proof. reflexivity. Qed.
Lemma exec_PutState key value stub : exec (PutState key value) stub = put key value stub.
Proof. reflexivity. Qed.
Lemma eval_PutState key value stub : eval (PutState key value) stub = None.
Proof. reflexivity. Qed.
Lemma eval_time_Now stub : eval time_Now stub = time_Format (Clock stub).
Proof. reflexivity. Qed.
Lemma State_exec_time_Now stub : State (exec time_Now stub) = State stub.
Proof. reflexivity. Qed.

Lemma ww_lookup {A} ks (c : M A) stub k :
  writes_within ks c -> k ∉ ks -> State (exec c stub) !! k = State stub !! k.
Proof. intros Hc Hk. apply Hc, Hk. Qed.

Lemma stored_ext stub stub' k : State stub' !! k = State stub !! k -> stored stub' k = stored stub k.
Proof. intros E. unfold stored. f_equal. exact E. Qed.

Lemma State_put_eq key value stub : State (put key value stub) !! key = Some value.
Proof. apply lookup_insert_eq. Qed.

Lemma State_put_ne key value stub k : key <> k -> State (put key value stub) !! k = State stub !! k.
Proof. apply lookup_insert_ne. Qed.

Lemma stored_put_eq key value stub : stored (put key value stub) key = value.
Proof. unfold stored. rewrite State_put_eq. reflexivity. Qed.

Lemma stored_put_ne key value stub k : key <> k -> stored (put key value stub) k = stored stub k.
Proof. intros. apply stored_ext, State_put_ne. assumption. Qed.

End Run.

Ltac run :=
  repeat (progress (rewrite ?exec_bind, ?eval_bind, ?exec_ret, ?eval_ret, ?exec_GetState,
                      ?eval_GetState, ?exec_PutState, ?eval_PutState, ?eval_time_Now;
                    cbv beta iota zeta)).

Section Log.
Context `{GoLib}.
Local Open Scope go_scope.

Lemma exec_SaveMALogHolder lh key stub :
  exec (SaveMALogHolder lh key) stub = put key (Marshal lh) stub.
Proof. reflexivity. Qed.
Lemma eval_SaveMALogHolder lh key stub : eval (SaveMALogHolder lh key) stub = None.
Proof. reflexivity. Qed.

(** The holder that [GetMALogHolder] returns depends on the ledger entry only. *)
Lemma GetMALogHolder_eval_ext key stub stub' :
  State stub' !! key = State stub !! key ->
  eval (GetMALogHolder key) stub' = eval (GetMALogHolder key) stub.
Proof.
  intros E. unfold GetMALogHolder. run.
  rewrite (stored_ext _ _ _ E).
  destruct (len _ =? 0); run; [reflexivity|].
  destruct (Unmarshal _) as [lh [e|]]; reflexivity.
Qed.

Lemma AppendMALog_holder action text status id stub :
  State (exec (AppendMALog action text status id) stub) !! (typeMALog +:+ id) =
  Some (Marshal {| MALogs :=
          go_append (MALogs (fst (eval (GetMALogHolder (typeMALog +:+ id)) stub)))
                    (newMALog action text status id (time_Format (Clock stub))) |}).
Proof.
  unfold AppendMALog.
  change (GetStateKey id MALOG) with (typeMALog +:+ id, @None string). run.
  rewrite (GetMALogHolder_eval_ext _ stub (exec time_Now stub)) by reflexivity.
  destruct (eval (GetMALogHolder _) stub) as [lh err] eqn:E. run.
  rewrite eval_SaveMALogHolder, exec_SaveMALogHolder. cbv iota beta.
  erewrite (ww_lookup [maLogKeysName; bcLogsKey]);
    [| unfold GetMALogKeys, SaveMALogKeys, GetBCLogs, SaveBCLogs; ww | notin].
  apply State_put_eq.
Qed.

End Log.

Section Documents.
Context `{GoLib}.
Local Open Scope go_scope.

Lemma GetAppraiserApplication_run stub callerId aff id aa :
  Unmarshal (stored stub (typeAppraiserApplication +:+ id)) = (aa, None) ->
  GetAppraiserApplication callerId aff [id] stub =
  (if String.eqb callerId (AA_AppraiserId aa) || String.eqb callerId (AA_ReviewerId aa)
      || (aff =? AUDITOR_A)
   then (aa, stored stub (typeAppraiserApplication +:+ id), None)
   else (aa, "", errors_New ("User " +:+ callerId +:+
           "does not have rights to access appraiserApplication with id " +:+ id)),
   stub).
Proof.
  intros Haa. unfold GetAppraiserApplication.
  change (GetStateKey id APPRAISERAPPLICATION)
    with (typeAppraiserApplication +:+ id, @None string).
  cbv iota beta.
  rewrite (bind_step _ _ _ _ _ (GetState_run _ _)), Haa.
  destruct (_ || _); reflexivity.
Qed.

Lemma GetSalesContract_run stub callerId aff id sc :
  Unmarshal (stored stub (typeSalesContract +:+ id)) = (sc, None) ->
  GetSalesContract callerId aff [id] stub =
  (if String.eqb callerId (SC_SellerId sc) || String.eqb callerId (SC_BuyerId sc)
      || (aff =? AUDITOR_A) || (aff =? BANK_A)
   then (sc, stored stub (typeSalesContract +:+ id), None)
   else (sc, "", errors_New ("User " +:+ callerId +:+
           "does not have rights to access salesContract with id " +:+ id)),
   stub).
Proof.
  intros Hsc. unfold GetSalesContract.
  change (GetStateKey id SALESCONTRACT) with (typeSalesContract +:+ id, @None string).
  cbv iota beta.
  rewrite (bind_step _ _ _ _ _ (GetState_run _ _)), Hsc.
  destruct (_ || _); reflexivity.
Qed.

Lemma eqb_true a b : String.eqb a b = true <-> a = b.
Proof. apply String.eqb_eq. Qed.

Lemma access3 a b c (x : Z) y :
  String.eqb a b || String.eqb a c || (x =? y) = true <-> a = b \/ a = c \/ x = y.
Proof. rewrite !orb_true_iff, !String.eqb_eq, Z.eqb_eq. tauto. Qed.

Lemma access4 a b c (x : Z) y z :
  String.eqb a b || String.eqb a c || (x =? y) || (x =? z) = true <->
  a = b \/ a = c \/ x = y \/ x = z.
Proof. rewrite !orb_true_iff, !String.eqb_eq, !Z.eqb_eq. tauto. Qed.

(** C5. For a stored mortgage application (the bytes under its key decode to
    [ma]) and any caller, [GetMortgageApplication] returns the document and
    its bytes when the caller is the buyer, the reviewer or an auditor, and
    the access error, with no bytes, for every other caller. *)
Theorem GetMortgageApplication_access stub callerId aff id ma :
  Unmarshal (stored stub (typeMortgageApplication +:+ id)) = (ma, None) ->
  (callerId = MA_BuyerId ma \/ callerId = MA_ReviewerId ma \/ aff = AUDITOR_A ->
   GetMortgageApplication callerId aff [id] stub =
   ((ma, stored stub (typeMortgageApplication +:+ id), None), stub)) /\
  (~ (callerId = MA_BuyerId ma \/ callerId = MA_ReviewerId ma \/ aff = AUDITOR_A) ->
   GetMortgageApplication callerId aff [id] stub =
   ((ma, "", errors_New ("User " +:+ callerId +:+
        "does not have rights to access mortgageApplication with id " +:+ id)), stub)).
Proof.
  intros Hma. rewrite (GetMortgageApplication_run _ _ _ _ _ Hma).
  destruct (_ || _) eqn:E.
  - apply access3 in E. split; [reflexivity | tauto].
  - split; [| reflexivity]. intros Hok. apply access3 in Hok. congruence.
Qed.

(** C6, as the code has it.  For a stored sales contract and any caller,
    [GetSalesContract] returns the document and its bytes when the caller is
    the seller or the buyer of the contract, or has the role of auditor, or
    has the role of bank (any bank, whether or not it is the reviewer of the
    contract), and the access error for every other caller. *)
Theorem GetSalesContract_access stub callerId aff id sc :
  Unmarshal (stored stub (typeSalesContract +:+ id)) = (sc, None) ->
  (callerId = SC_SellerId sc \/ callerId = SC_BuyerId sc \/ aff = AUDITOR_A \/ aff = BANK_A ->
   GetSalesContract callerId aff [id] stub =
   ((sc, stored stub (typeSalesContract +:+ id), None), stub)) /\
  (~ (callerId = SC_SellerId sc \/ callerId = SC_BuyerId sc \/ aff = AUDITOR_A \/ aff = BANK_A) ->
   GetSalesContract callerId aff [id] stub =
   ((sc, "", errors_New ("User " +:+ callerId +:+
        "does not have rights to access salesContract with id " +:+ id)), stub)).
Proof.
  intros Hsc. rewrite (GetSalesContract_run _ _ _ _ _ Hsc).
  destruct (_ || _) eqn:E.
  - apply access4 in E. split; [reflexivity | tauto].
  - split; [| reflexivity]. intros Hok. apply access4 in Hok. congruence.
Qed.

End Documents.

Ltac ww_ops :=
  repeat first
    [ ww_step
    | apply ww_AddKey; key_in
    | apply ww_GetBuyer; key_in
    | apply ww_SaveBuyer; key_in
    | apply ww_GetBank; key_in
    | apply ww_SaveBank; key_in
    | apply ww_GetSeller; key_in
    | apply ww_SaveSeller; key_in
    | apply ww_GetAppraiser; key_in
    | apply ww_SaveAppraiser; key_in
    | apply ww_AppendMALog; key_in ].

Section RoundTrip.
Context `{GoLib}.
Local Open Scope go_scope.

Lemma CreateMortgageApplication_stores stub callerId aff id body (ma : MortgageApplication) :
  Unmarshal body = (ma, None) ->
  State (exec (CreateMortgageApplication callerId aff [id; body]) stub)
    !! (typeMortgageApplication +:+ id) = Some body.
Proof.
  intros Hma. unfold CreateMortgageApplication.
  change (GetStateKey id MORTGAGEAPPLICATION) with (typeMortgageApplication +:+ id, @None string).
  cbv iota beta. rewrite Hma. run.
  erewrite (ww_lookup [maKeysName; typeUser +:+ callerId; typeUser +:+ MA_ReviewerId ma;
                       typeMALog +:+ id; maLogKeysName; bcLogsKey]);
    [| ww_ops | notin].
  erewrite (ww_lookup [maKeysName]); [apply State_put_eq | ww_ops | notin].
Qed.

Lemma CreateAppraiserApplication_stores stub callerId id body (aa : AppraiserApplication) :
  Unmarshal body = (aa, None) ->
  State (exec (CreateAppraiserApplication callerId BANK_A [id; body]) stub)
    !! (typeAppraiserApplication +:+ id) = Some body.
Proof.
  intros Haa. unfold CreateAppraiserApplication.
  change (negb (BANK_A =? BANK_A)) with false.
  change (GetStateKey id APPRAISERAPPLICATION)
    with (typeAppraiserApplication +:+ id, @None string).
  cbv iota beta. run. rewrite Haa. cbv iota beta.
  erewrite (ww_lookup [maKeysName; typeUser +:+ AA_AppraiserId aa;
                       typeMALog +:+ id; maLogKeysName; bcLogsKey]);
    [apply State_put_eq | ww_ops | notin].
Qed.

Lemma CreateSalesContract_stores stub callerId id body (sc : SalesContract) :
  Unmarshal body = (sc, None) ->
  State (exec (CreateSalesContract callerId BUYER_A [id; body]) stub)
    !! (typeSalesContract +:+ id) = Some body.
Proof.
  intros Hsc. unfold CreateSalesContract.
  change (negb (BUYER_A =? BUYER_A)) with false.
  change (GetStateKey id SALESCONTRACT) with (typeSalesContract +:+ id, @None string).
  cbv iota beta. rewrite Hsc. run.
  erewrite (ww_lookup [maKeysName; typeUser +:+ SC_SellerId sc; typeUser +:+ callerId;
                       typeUser +:+ SC_ReviewerId sc;
                       typeMALog +:+ id; maLogKeysName; bcLogsKey]);
    [| ww_ops | notin].
  erewrite (ww_lookup [maKeysName]); [apply State_put_eq | ww_ops | notin].
Qed.

Lemma stored_Some stub key value : State stub !! key = Some value -> stored stub key = value.
Proof. unfold stored. intros ->. reflexivity. Qed.

Lemma eval_GetMortgageApplication_stored stub callerId aff id body (ma : MortgageApplication) :
  State stub !! (typeMortgageApplication +:+ id) = Some body ->
  Unmarshal body = (ma, None) ->
  callerId = MA_BuyerId ma \/ callerId = MA_ReviewerId ma \/ aff = AUDITOR_A ->
  eval (GetMortgageApplication callerId aff [id]) stub = (ma, body, None).
Proof.
  intros Hst Hma Hok. apply stored_Some in Hst.
  pose proof (GetMortgageApplication_run stub callerId aff id ma) as Hrun.
  rewrite Hst in Hrun. unfold eval. rewrite (Hrun Hma).
  apply access3 in Hok. rewrite Hok. reflexivity.
Qed.

Lemma eval_GetAppraiserApplication_stored stub callerId aff id body (aa : AppraiserApplication) :
  State stub !! (typeAppraiserApplication +:+ id) = Some body ->
  Unmarshal body = (aa, None) ->
  callerId = AA_AppraiserId aa \/ callerId = AA_ReviewerId aa \/ aff = AUDITOR_A ->
  eval (GetAppraiserApplication callerId aff [id]) stub = (aa, body, None).
Proof.
  intros Hst Haa Hok. apply stored_Some in Hst.
  pose proof (GetAppraiserApplication_run stub callerId aff id aa) as Hrun.
  rewrite Hst in Hrun. unfold eval. rewrite (Hrun Haa).
  apply access3 in Hok. rewrite Hok. reflexivity.
Qed.

Lemma eval_GetSalesContract_stored stub callerId aff id body (sc : SalesContract) :
  State stub !! (typeSalesContract +:+ id) = Some body ->
  Unmarshal body = (sc, None) ->
  callerId = SC_SellerId sc \/ callerId = SC_BuyerId sc \/ aff = AUDITOR_A \/ aff = BANK_A ->
  eval (GetSalesContract callerId aff [id]) stub = (sc, body, None).
Proof.
  intros Hst Hsc Hok. apply stored_Some in Hst.
  pose proof (GetSalesContract_run stub callerId aff id sc) as Hrun.
  rewrite Hst in Hrun. unfold eval. rewrite (Hrun Hsc).
  apply access4 in Hok. rewrite Hok. reflexivity.
Qed.

(** C9. For each of the three document kinds, when the caller passes the
    role gate of [Create*] and the body is a well-formed document, a [Get*]
    of the same id right after the [Create*], by a party that passes the
    access check on that document, returns exactly the submitted bytes. *)
Theorem Create_then_Get_returns_body kind stub callerId aff id body reader raff :
  may_create kind aff ->
  readable_by kind body reader raff ->
  eval (Get kind reader raff [id]) (exec (Create kind callerId aff [id; body]) stub)
  = (body, None).
Proof.
  destruct kind; unfold may_create, readable_by, Get, Create; intros Hrole Hread.
  - destruct Hread as (ma & Hma & Hok).
    rewrite eval_bind, eval_ret.
    rewrite (eval_GetMortgageApplication_stored _ _ _ _ body ma); auto.
    apply (CreateMortgageApplication_stores _ _ _ _ _ ma Hma).
  - subst aff. destruct Hread as (aa & Haa & Hok).
    rewrite eval_bind, eval_ret.
    rewrite (eval_GetAppraiserApplication_stored _ _ _ _ body aa); auto.
    apply (CreateAppraiserApplication_stores _ _ _ _ aa Haa).
  - subst aff. destruct Hread as (sc & Hsc & Hok).
    rewrite eval_bind, eval_ret.
    rewrite (eval_GetSalesContract_stored _ _ _ _ body sc); auto.
    apply (CreateSalesContract_stores _ _ _ _ sc Hsc).
Qed.

End RoundTrip.

Section CreateMA.
Context `{GoLib}.
Local Open Scope go_scope.

Lemma bind_run {A B} (c : M A) (k : A -> M B) stub :
  bind c k stub = k (eval c stub) (exec c stub).
Proof. unfold bind, eval, exec. destruct (c stub); reflexivity. Qed.

Lemma len_0 s : len s = 0 <-> s = "".
Proof.
  unfold len. destruct s; simpl; [tauto |]. split; [lia | discriminate].
Qed.

Lemma eval_AddKey_ok id keysName stub :
  keys_readable stub keysName -> eval (AddKey id keysName) stub = (true, None).
Proof.
  intros Hk. unfold AddKey. run. change (bool_decide (None <> None)) with false.
  cbv beta iota. unfold orb.
  destruct (len _ =? 0) eqn:E; [run; reflexivity |].
  destruct Hk as [Hk | Hk]; [apply Z.eqb_eq in Hk; congruence |].
  destruct (Unmarshal _) as [l e]. simpl in Hk. subst e. run. reflexivity.
Qed.

Lemma keys_readable_ext stub stub' keysName :
  State stub' !! keysName = State stub !! keysName ->
  keys_readable stub keysName -> keys_readable stub' keysName.
Proof. intros E. unfold keys_readable. rewrite (stored_ext _ _ _ E). tauto. Qed.

Lemma GetBuyer_eval_ext key stub stub' :
  State stub' !! key = State stub !! key ->
  eval (GetBuyer key) stub' = eval (GetBuyer key) stub.
Proof.
  intros E. unfold GetBuyer. run. rewrite (stored_ext _ _ _ E).
  destruct (len _ =? 0); run; [reflexivity|].
  destruct (Unmarshal _) as [b [e|]]; reflexivity.
Qed.

Lemma GetBank_eval_ext key stub stub' :
  State stub' !! key = State stub !! key ->
  eval (GetBank key) stub' = eval (GetBank key) stub.
Proof.
  intros E. unfold GetBank. run. rewrite (stored_ext _ _ _ E).
  destruct (len _ =? 0); run; [reflexivity|].
  destruct (Unmarshal _) as [b [e|]]; reflexivity.
Qed.

Lemma eval_SaveBuyer b id stub : eval (SaveBuyer b id) stub = None.
Proof. reflexivity. Qed.
Lemma exec_SaveBuyer b id stub : exec (SaveBuyer b id) stub = put id (Marshal b) stub.
Proof. reflexivity. Qed.
Lemma eval_SaveBank b id stub : eval (SaveBank b id) stub = None.
Proof. reflexivity. Qed.
Lemma exec_SaveBank b id stub : exec (SaveBank b id) stub = put id (Marshal b) stub.
Proof. reflexivity. Qed.

Lemma CreateMortgageApplication_run stub callerId aff id body (ma : MortgageApplication) :
  Unmarshal body = (ma, None) ->
  keys_readable stub maKeysName ->
  let maKey := typeMortgageApplication +:+ id in
  let buyerKey := typeUser +:+ callerId in
  let bankKey := typeUser +:+ MA_ReviewerId ma in
  let s2 := exec (AddKey maKey maKeysName) (put maKey body stub) in
  let buyer := fst (eval (GetBuyer buyerKey) s2) in
  let s3 := put buyerKey
              (Marshal (Buyer_set_MortgageApplications buyer
                          (go_append (Buyer_MortgageApplications buyer) id)))
              (exec (GetBuyer buyerKey) s2) in
  let bank := fst (eval (GetBank bankKey) s3) in
  let s4 := put bankKey
              (Marshal (Bank_set_MortgageApplications bank
                          (go_append (Bank_MortgageApplications bank) id)))
              (exec (GetBank bankKey) s3) in
  CreateMortgageApplication callerId aff [id; body] stub =
  (("", None),
   exec (AppendMALog "CreateMortgageApplication"
           (callerId +:+ " Submitted new MortgageApplication") "Submitted" id) s4).
Proof.
  intros Hma Hkeys. cbv zeta. unfold CreateMortgageApplication.
  change (GetStateKey id MORTGAGEAPPLICATION) with (typeMortgageApplication +:+ id, @None string).
  cbv iota beta. rewrite Hma. cbv iota beta zeta.
  rewrite bind_run, eval_PutState, exec_PutState. cbv iota beta.
  rewrite bind_run, eval_AddKey_ok; cycle 1.
  { eapply keys_readable_ext; [| exact Hkeys]. apply State_put_ne. discriminate. }
  cbv iota beta.
  change (GetStateKey callerId USER) with (typeUser +:+ callerId, @None string).
  cbv iota beta. rewrite bind_run.
  destruct (eval (GetBuyer _) _) as [buyer e1] eqn:E1. cbv iota beta.
  rewrite bind_run, eval_SaveBuyer, exec_SaveBuyer. cbv iota beta.
  change (GetStateKey (MA_ReviewerId ma) USER)
    with (typeUser +:+ MA_ReviewerId ma, @None string).
  cbv iota beta. rewrite bind_run.
  destruct (eval (GetBank _) _) as [bank e2] eqn:E2. cbv iota beta.
  rewrite bind_run, eval_SaveBank, exec_SaveBank. cbv iota beta.
  rewrite bind_run. reflexivity.
Qed.

End CreateMA.

Section CreateMAThenGet.
Context `{GoLib}.
Local Open Scope go_scope.

Lemma occurrences_append_fresh id (l : slice string) :
  id ∉ elems l -> occurrences id (go_append l id) = 1%nat.
Proof.
  intros Hfresh. unfold occurrences, go_append. simpl.
  rewrite count_occ_app. simpl.
  destruct (String.string_dec id id) as [_ | Hne]; [| congruence].
  assert (count_occ String.string_dec (elems l) id = 0%nat) as ->; [| reflexivity].
  apply count_occ_not_In. intros Hin. apply Hfresh, list_elem_of_In, Hin.
Qed.

(** C4. A mortgage application is submitted by [callerId] under a fresh
    [id] with a well-formed body that names the submitter as buyer and a
    different party as reviewing bank, and the registry of mortgage
    applications can be extended.  Then the creation succeeds, a
    [GetMortgageApplication] by the submitter returns the document decoded
    from the submitted body (so its buyer and reviewer are those of the
    body) together with the body, and the party records stored for the
    buyer and for the bank are the records they had before (or fresh ones)
    with [id] appended to [mortgageApplications], where it occurs exactly
    once. *)
Theorem CreateMortgageApplication_then_Get stub callerId aff id body (ma : MortgageApplication) :
  Unmarshal body = (ma, None) ->
  MA_BuyerId ma = callerId ->
  MA_ReviewerId ma <> callerId ->
  keys_readable stub maKeysName ->
  let buyerKey := typeUser +:+ callerId in
  let bankKey := typeUser +:+ MA_ReviewerId ma in
  let buyer := fst (eval (GetBuyer buyerKey) stub) in
  let bank := fst (eval (GetBank bankKey) stub) in
  id ∉ elems (Buyer_MortgageApplications buyer) ->
  id ∉ elems (Bank_MortgageApplications bank) ->
  let buyer' := Buyer_set_MortgageApplications buyer
                  (go_append (Buyer_MortgageApplications buyer) id) in
  let bank' := Bank_set_MortgageApplications bank
                 (go_append (Bank_MortgageApplications bank) id) in
  let stub' := exec (CreateMortgageApplication callerId aff [id; body]) stub in
  eval (CreateMortgageApplication callerId aff [id; body]) stub = ("", None) /\
  eval (GetMortgageApplication callerId aff [id]) stub' = (ma, body, None) /\
  State stub' !! buyerKey = Some (Marshal buyer') /\
  occurrences id (Buyer_MortgageApplications buyer') = 1%nat /\
  State stub' !! bankKey = Some (Marshal bank') /\
  occurrences id (Bank_MortgageApplications bank') = 1%nat.
Proof.
  intros Hma Hbuyer Hbank Hkeys buyerKey bankKey buyer bank Hf1 Hf2 buyer' bank' stub'.
  assert (buyerKey <> bankKey) as Hne.
  { unfold buyerKey, bankKey. key_ne. }
  pose proof (CreateMortgageApplication_run stub callerId aff id body ma Hma Hkeys) as Hrun.
  cbv zeta in Hrun. fold buyerKey bankKey in Hrun.
  set (s2 := exec (AddKey _ maKeysName) _) in Hrun.
  assert (State s2 !! buyerKey = State stub !! buyerKey) as Hs2buyer.
  { unfold s2. erewrite (ww_lookup [maKeysName]); [| ww_ops | unfold buyerKey; notin].
    apply State_put_ne. unfold buyerKey. discriminate. }
  assert (State s2 !! bankKey = State stub !! bankKey) as Hs2bank.
  { unfold s2. erewrite (ww_lookup [maKeysName]); [| ww_ops | unfold bankKey; notin].
    apply State_put_ne. unfold bankKey. discriminate. }
  rewrite (GetBuyer_eval_ext buyerKey stub s2 Hs2buyer) in Hrun. fold buyer buyer' in Hrun.
  set (s3 := put buyerKey (Marshal buyer') _) in Hrun.
  assert (State s3 !! bankKey = State stub !! bankKey) as Hs3bank.
  { unfold s3. rewrite State_put_ne by exact Hne.
    erewrite (ww_lookup [buyerKey]); [exact Hs2bank | ww_ops |].
    rewrite list_elem_of_singleton. congruence. }
  rewrite (GetBank_eval_ext bankKey stub s3 Hs3bank) in Hrun. fold bank bank' in Hrun.
  set (s4 := put bankKey (Marshal bank') _) in Hrun.
  assert (exec (CreateMortgageApplication callerId aff [id; body]) stub =
          exec (AppendMALog "CreateMortgageApplication"
                  (callerId +:+ " Submitted new MortgageApplication") "Submitted" id) s4)
    as Hexec by (unfold exec at 1; rewrite Hrun; reflexivity).
  repeat split.
  - unfold eval. rewrite Hrun. reflexivity.
  - apply (eval_GetMortgageApplication_stored _ _ _ _ body ma); auto.
    apply (CreateMortgageApplication_stores _ _ _ _ _ ma Hma).
  - unfold stub'. rewrite Hexec.
    erewrite (ww_lookup [typeMALog +:+ id; maLogKeysName; bcLogsKey]);
      [| ww_ops | unfold buyerKey; notin].
    unfold s4. rewrite State_put_ne by congruence.
    erewrite (ww_lookup [bankKey]); [| ww_ops | rewrite list_elem_of_singleton; exact Hne].
    apply State_put_eq.
  - apply occurrences_append_fresh, Hf1.
  - unfold stub'. rewrite Hexec.
    erewrite (ww_lookup [typeMALog +:+ id; maLogKeysName; bcLogsKey]);
      [| ww_ops | unfold bankKey; notin].
    apply State_put_eq.
  - apply occurrences_append_fresh, Hf2.
Qed.

End CreateMAThenGet.

Section UpdateMA.
Context `{GoLib}.
Local Open Scope go_scope.

Lemma exec_GetMortgageApplication callerId aff args stub :
  exec (GetMortgageApplication callerId aff args) stub = stub.
Proof.
  unfold GetMortgageApplication. destruct args as [| maId args]; [reflexivity |].
  change (GetStateKey maId MORTGAGEAPPLICATION)
    with (typeMortgageApplication +:+ maId, @None string).
  run. destruct (Unmarshal _) as [ma [e |]]; [reflexivity |].
  destruct (_ || _); reflexivity.
Qed.

Lemma eval_GetMortgageApplication_auditor stub callerId id (ma : MortgageApplication) :
  Unmarshal (stored stub (typeMortgageApplication +:+ id)) = (ma, None) ->
  eval (GetMortgageApplication callerId AUDITOR_A [id]) stub =
  (ma, stored stub (typeMortgageApplication +:+ id), None).
Proof.
  intros Hma. unfold eval. rewrite (GetMortgageApplication_run _ _ _ _ ma Hma).
  change (AUDITOR_A =? AUDITOR_A) with true. rewrite orb_true_r. reflexivity.
Qed.

Lemma eval_SaveMortgageApplication ma id stub :
  eval (SaveMortgageApplication ma id) stub = (Marshal ma, None).
Proof. reflexivity. Qed.

Lemma exec_SaveMortgageApplication ma id stub :
  exec (SaveMortgageApplication ma id) stub = put (typeMortgageApplication +:+ id) (Marshal ma) stub.
Proof. reflexivity. Qed.



(** What [UpdateMortgageApplication] does once the document and the payload
    are decoded: the reviewer's merge, the appraiser's, or the refusal. *)
Lemma UpdateMortgageApplication_run stub callerId aff id payload
    (ma : MortgageApplication) (u : MAUpdateSchema) :
  Unmarshal (stored stub (typeMortgageApplication +:+ id)) = (ma, None) ->
  Unmarshal payload = (u, None) ->
  let st := strings_TrimSpace (MAU_Status u) in
  let sc := strings_TrimSpace (MAU_SalesContractId u) in
  let am := MAU_ApprovedAmount u in
  let fmv := MAU_FairMarketValue u in
  let ma1 := if 0 <? len st then MA_set_Status ma st else ma in
  let ma2 := if 0 <? len sc then MA_set_SalesContractId ma1 sc else ma1 in
  let ma3 := if negb (am =? 0) then MA_set_ApprovedAmount ma2 am else ma2 in
  let msg1 := if 0 <? len st
              then callerId +:+ " changed status from " +:+ MA_Status ma +:+ " to " +:+ st
              else "" in
  let msg2 := if 0 <? len sc
              then if 0 <? len st
                   then msg1 +:+ "and updated sales contract Id to " +:+ sc +:+ "."
                   else msg1 +:+ callerId +:+ " updated sales contract Id to " +:+ sc +:+ "."
              else msg1 in
  let msg3 := if negb (am =? 0)
              then if (0 <? len st) || (0 <? len sc)
                   then msg2 +:+ "and updated approved amount to " +:+ strconv_Itoa am +:+ "."
                   else msg2 +:+ callerId +:+ " updated approved amount to " +:+
                          strconv_Itoa am +:+ "."
              else msg2 in
  UpdateMortgageApplication callerId aff [id; payload] stub =
  if String.eqb callerId (MA_ReviewerId ma) then
    if (0 <? len st) || (0 <? len sc) || negb (am =? 0)
    then ((Marshal ma3, None),
          exec (AppendMALog "UpdateMortgageApplication" msg3 (MA_Status ma3) id)
               (put (typeMortgageApplication +:+ id) (Marshal ma3) stub))
    else (("", None), stub)
  else if aff =? APPRAISER_A then
    if negb (fmv =? 0)
    then ((Marshal (MA_set_FairMarketValue ma fmv), None),
          exec (AppendMALog "UpdateMortgageApplication" "" (MA_Status ma) id)
               (put (typeMortgageApplication +:+ id)
                    (Marshal (MA_set_FairMarketValue ma fmv)) stub))
    else (("", None), stub)
  else (("", errors_New ("User with id " +:+ callerId +:+
           "does not have rights to update the mortgage application")), stub).
Proof.
  intros Hma Hu. cbv zeta. unfold UpdateMortgageApplication.
  rewrite bind_run, (eval_GetMortgageApplication_auditor _ _ _ ma Hma),
    exec_GetMortgageApplication.
  cbv beta iota. rewrite Hu. cbv beta iota zeta.
  destruct (String.eqb callerId (MA_ReviewerId ma)).
  - destruct (0 <? len (strings_TrimSpace (MAU_Status u)));
      destruct (0 <? len (strings_TrimSpace (MAU_SalesContractId u)));
      destruct (MAU_ApprovedAmount u =? 0);
      cbv beta iota zeta delta [negb orb]; try reflexivity;
      rewrite bind_run, eval_SaveMortgageApplication, exec_SaveMortgageApplication;
      cbv beta iota; rewrite bind_run; reflexivity.
  - destruct (aff =? APPRAISER_A); [| reflexivity].
    destruct (MAU_FairMarketValue u =? 0); cbv beta iota zeta delta [negb]; [reflexivity |].
    rewrite bind_run, eval_SaveMortgageApplication, exec_SaveMortgageApplication.
    cbv beta iota. rewrite bind_run. reflexivity.
Qed.

End UpdateMA.

Section UpdateMAReviewer.
Context `{GoLib}.
Local Open Scope go_scope.


Lemma AppendMALog_keeps action text status id stub k :
  k ∉ [typeMALog +:+ id; maLogKeysName; bcLogsKey] ->
  State (exec (AppendMALog action text status id) stub) !! k = State stub !! k.
Proof. intros Hk. apply (ww_lookup [typeMALog +:+ id; maLogKeysName; bcLogsKey]); [ww_ops | exact Hk]. Qed.


End UpdateMAReviewer.

Section AuditLog.
Context `{GoLib}.
Local Open Scope go_scope.

Lemma exec_GetMALogKeys stub : exec GetMALogKeys stub = stub.
Proof.
  unfold GetMALogKeys. run. destruct (len _ =? 0); [reflexivity |].
  destruct (Unmarshal _) as [keys [e |]]; reflexivity.
Qed.

Lemma exec_GetBCLogs stub : exec GetBCLogs stub = stub.
Proof.
  unfold GetBCLogs. run. destruct (len _ =? 0); [reflexivity |].
  destruct (Unmarshal _) as [keys [e |]]; reflexivity.
Qed.

Lemma GetBCLogs_eval_ext stub stub' :
  State stub' !! bcLogsKey = State stub !! bcLogsKey ->
  eval GetBCLogs stub' = eval GetBCLogs stub.
Proof.
  intros E. unfold GetBCLogs. run. rewrite (stored_ext _ _ _ E).
  destruct (len _ =? 0); [reflexivity |].
  destruct (Unmarshal _) as [logs [e |]]; reflexivity.
Qed.

Lemma eval_SaveMALogKeys keys stub : eval (SaveMALogKeys keys) stub = None.
Proof. reflexivity. Qed.
Lemma exec_SaveMALogKeys keys stub :
  exec (SaveMALogKeys keys) stub = put maLogKeysName (Marshal keys) stub.
Proof. reflexivity. Qed.
Lemma exec_SaveBCLogs logs stub : exec (SaveBCLogs logs) stub = put bcLogsKey (Marshal logs) stub.
Proof. reflexivity. Qed.

Lemma GetMALogHolder_keeps key stub k :
  k <> key -> State (exec (GetMALogHolder key) stub) !! k = State stub !! k.
Proof.
  intros Hk. apply (ww_lookup [key]).
  - unfold GetMALogHolder. ww.
  - rewrite list_elem_of_singleton. exact Hk.
Qed.

(** The global log after [AppendMALog]: untouched when the call stops at an
    unreadable list, and otherwise the log read before with the new entry
    at its end. *)
Lemma AppendMALog_global action text status id stub :
  let stub' := exec (AppendMALog action text status id) stub in
  State stub' !! bcLogsKey = State stub !! bcLogsKey \/
  State stub' !! bcLogsKey =
  Some (Marshal (go_append (fst (eval GetBCLogs stub))
                   (newMALog action text status id (time_Format (Clock stub))))).
Proof.
  cbv zeta. unfold AppendMALog.
  change (GetStateKey id MALOG) with (typeMALog +:+ id, @None string). run.
  destruct (eval (GetMALogHolder _) _) as [lh err] eqn:E. run.
  rewrite eval_SaveMALogHolder, exec_SaveMALogHolder. cbv iota beta. run.
  rewrite exec_GetMALogKeys.
  set (s3 := put (typeMALog +:+ id) _ _).
  assert (State s3 !! bcLogsKey = State stub !! bcLogsKey) as Hs3.
  { unfold s3. rewrite State_put_ne by discriminate.
    rewrite GetMALogHolder_keeps by discriminate. reflexivity. }
  destruct (eval GetMALogKeys s3) as [keys [e |]]; run; [left; exact Hs3 |].
  rewrite exec_SaveMALogKeys, exec_GetBCLogs.
  set (s4 := put maLogKeysName _ s3).
  assert (State s4 !! bcLogsKey = State stub !! bcLogsKey) as Hs4.
  { unfold s4. rewrite State_put_ne by discriminate. exact Hs3. }
  rewrite (GetBCLogs_eval_ext stub s4 Hs4).
  destruct (eval GetBCLogs stub) as [logs [e |]]; run; [left; exact Hs4 |].
  right. rewrite exec_SaveBCLogs. apply State_put_eq.
Qed.

(** C10. The entry that [AppendMALog] writes has an empty buyer id and an
    empty reviewer id, whatever the action, text, status and document: the
    log of the document becomes the entries it had followed by that entry,
    and the global log either stays as it is or gains the same entry. *)
Theorem AppendMALog_entry_ids_empty action text status id stub :
  let key := typeMALog +:+ id in
  let log := newMALog action text status id (time_Format (Clock stub)) in
  let stub' := exec (AppendMALog action text status id) stub in
  Log_BuyerId log = "" /\
  Log_ReviewerId log = "" /\
  State stub' !! key =
    Some (Marshal {| MALogs :=
            Some (elems (MALogs (fst (eval (GetMALogHolder key) stub))) ++ [log]) |}) /\
  (State stub' !! bcLogsKey = State stub !! bcLogsKey \/
   State stub' !! bcLogsKey =
     Some (Marshal (Some (elems (fst (eval GetBCLogs stub)) ++ [log])))).
Proof.
  cbv zeta. split; [reflexivity |]. split; [reflexivity |]. split.
  - apply AppendMALog_holder.
  - apply AppendMALog_global.
Qed.

End AuditLog.

Section UpdateAA.
Context `{GoLib}.
Local Open Scope go_scope.

Lemma exec_GetAppraiserApplication callerId aff args stub :
  exec (GetAppraiserApplication callerId aff args) stub = stub.
Proof.
  unfold GetAppraiserApplication. destruct args as [| maId args]; [reflexivity |].
  change (GetStateKey maId APPRAISERAPPLICATION)
    with (typeAppraiserApplication +:+ maId, @None string).
  run. destruct (Unmarshal _) as [ma [e |]]; [reflexivity |].
  destruct (_ || _); reflexivity.
Qed.

Lemma eval_GetAppraiserApplication_appraiser stub aff id (aa : AppraiserApplication) :
  Unmarshal (stored stub (typeAppraiserApplication +:+ id)) = (aa, None) ->
  eval (GetAppraiserApplication (AA_AppraiserId aa) aff [id]) stub =
  (aa, stored stub (typeAppraiserApplication +:+ id), None).
Proof.
  intros Haa. unfold eval. rewrite (GetAppraiserApplication_run _ _ _ _ aa Haa).
  rewrite String.eqb_refl. reflexivity.
Qed.

Lemma eval_SaveAppraiserApplication aa id stub :
  eval (SaveAppraiserApplication aa id) stub = (Marshal aa, None).
Proof. reflexivity. Qed.

Lemma exec_SaveAppraiserApplication aa id stub :
  exec (SaveAppraiserApplication aa id) stub =
  put (typeAppraiserApplication +:+ id) (Marshal aa) stub.
Proof. reflexivity. Qed.

Lemma eqb_false a b : a <> b -> String.eqb a b = false.
Proof. intros Hne. apply String.eqb_neq, Hne. Qed.

(** C7, as the code has it.  The stored appraiser application decodes to
    [aa], the caller is its appraiser and has the role Appraiser, the payload
    carries a nonzero fair market value, the linked mortgage application is
    stored and decodes to [ma], and the caller is not the reviewer of [ma].
    Then [UpdateAppraiserApplication] stores [aa] with that value (and with
    the new status, when one is given) and stores [ma] with the same value
    as its fair market value, and returns the bytes of the latter. *)
Theorem UpdateAppraiserApplication_cascade stub callerId aff id payload
    (aa : AppraiserApplication) (u : AAUpdateSchema)
    (ma : MortgageApplication) (u' : MAUpdateSchema) :
  Unmarshal (stored stub (typeAppraiserApplication +:+ id)) = (aa, None) ->
  callerId = AA_AppraiserId aa ->
  aff = APPRAISER_A ->
  Unmarshal payload = (u, None) ->
  AAU_FairMarketValue u <> 0 ->
  Unmarshal (stored stub (typeMortgageApplication +:+ AA_MortgageApplicationId aa)) = (ma, None) ->
  callerId <> MA_ReviewerId ma ->
  Unmarshal (fairMarketValue_payload (AAU_FairMarketValue u)) = (u', None) ->
  MAU_FairMarketValue u' = AAU_FairMarketValue u ->
  let v := AAU_FairMarketValue u in
  let st := strings_TrimSpace (AAU_Status u) in
  let aa' := AA_set_FairMarketValue (if 0 <? len st then AA_set_Status aa st else aa) v in
  let ma' := MA_set_FairMarketValue ma v in
  let stub' := exec (UpdateAppraiserApplication callerId aff [id; payload]) stub in
  eval (UpdateAppraiserApplication callerId aff [id; payload]) stub = (Marshal ma', None) /\
  State stub' !! (typeAppraiserApplication +:+ id) = Some (Marshal aa') /\
  AA_FairMarketValue aa' = v /\
  State stub' !! (typeMortgageApplication +:+ AA_MortgageApplicationId aa) = Some (Marshal ma') /\
  MA_FairMarketValue ma' = v.
Proof.
  intros Haa -> -> Hu Hv Hma Hrev Hu' Hv' v st aa' ma' stub'.
  assert (UpdateAppraiserApplication (AA_AppraiserId aa) APPRAISER_A [id; payload] stub =
          ((Marshal ma', None),
           exec (AppendMALog "UpdateAppraiserApplication"
                   (if 0 <? len st
                    then AA_AppraiserId aa +:+ " changed status from " +:+ AA_Status aa +:+
                         " to " +:+ st +:+ " and updated fair market value: " +:+ strconv_Itoa v
                    else AA_AppraiserId aa +:+ " updated fair market value: " +:+ strconv_Itoa v)
                   st id)
             (exec (AppendMALog "UpdateMortgageApplication" "" (MA_Status ma)
                      (AA_MortgageApplicationId aa))
                (put (typeMortgageApplication +:+ AA_MortgageApplicationId aa) (Marshal ma')
                   (put (typeAppraiserApplication +:+ id) (Marshal aa') stub))))) as Hrun.
  { unfold UpdateAppraiserApplication.
    rewrite bind_run, (eval_GetAppraiserApplication_appraiser _ _ _ aa Haa),
      exec_GetAppraiserApplication.
    cbv beta iota. rewrite String.eqb_refl, Hu. cbv beta iota zeta. fold st v.
    apply Z.eqb_neq in Hv. fold v in Hv. rewrite Hv. cbv beta iota delta [negb].
    assert (forall s1,
              stored s1 (typeMortgageApplication +:+ AA_MortgageApplicationId aa) =
              stored stub (typeMortgageApplication +:+ AA_MortgageApplicationId aa) ->
              UpdateMortgageApplication (AA_AppraiserId aa) APPRAISER_A
                [AA_MortgageApplicationId aa; fairMarketValue_payload v] s1 =
              ((Marshal ma', None),
               exec (AppendMALog "UpdateMortgageApplication" "" (MA_Status ma)
                       (AA_MortgageApplicationId aa))
                 (put (typeMortgageApplication +:+ AA_MortgageApplicationId aa)
                    (Marshal ma') s1))) as HU.
    { intros s1 Hs1.
      rewrite (UpdateMortgageApplication_run _ _ _ _ _ ma u'); [| rewrite Hs1; exact Hma | exact Hu'].
      cbv zeta. rewrite (eqb_false _ _ Hrev). change (APPRAISER_A =? APPRAISER_A) with true.
      cbv beta iota. rewrite Hv'. fold v. rewrite Hv. reflexivity. }
    destruct (0 <? len st) eqn:Est; cbv beta iota;
      rewrite bind_run, eval_SaveAppraiserApplication, exec_SaveAppraiserApplication;
      cbv beta iota; rewrite bind_run; unfold eval at 1, exec at 1;
      (rewrite HU; [| apply stored_put_ne; key_ne]);
      cbv beta iota delta [andb negb fst snd]; rewrite bind_run; reflexivity. }
  assert (typeMortgageApplication +:+ AA_MortgageApplicationId aa <> typeAppraiserApplication +:+ id)
    as Hne by key_ne.
  unfold stub', eval, exec at 1 2. rewrite Hrun. cbv beta iota delta [fst snd].
  split; [reflexivity |]. split; [| split; [reflexivity | split; [| reflexivity]]].
  - rewrite !AppendMALog_keeps by notin.
    rewrite State_put_ne by exact Hne. apply State_put_eq.
  - rewrite !AppendMALog_keeps by notin. apply State_put_eq.
Qed.

End UpdateAA.

(** ** Further properties of the chaincode *)

Section More.
Context `{GoLib}.
Local Open Scope go_scope.

(** X1. [GetStateKey] yields a key exactly for the thirteen kinds 1 to 13;
    for any other number it yields the empty key and an error. *)
Theorem GetStateKey_valid_kinds (id : string) (otype : Z) :
  (snd (GetStateKey id otype) = None <-> 1 <= otype <= 13) /\
  (~ 1 <= otype <= 13 -> GetStateKey id otype = ("", errors_New "Invalid type")).
Proof.
  split_kind otype; cbn [snd];
    unfold MORTGAGEAPPLICATION, SALESCONTRACT, APPRAISERAPPLICATION, USER, BUYER, SELLER, BANK,
      APPRAISER, AUDITOR, LAND, PROPERTY, PROPERTYAD, MALOG in *;
    first
      [ split; [split; [intros _; lia | intros _; reflexivity]
               | intros Hn; exfalso; apply Hn; lia]
      | split; [split; [discriminate | intros Hr; exfalso; lia] | reflexivity] ].
Qed.

(** X2. Under one kind, different ids have different keys. *)
Theorem GetStateKey_injective_in_id (id1 id2 key : string) (otype : Z) :
  GetStateKey id1 otype = (key, None) ->
  GetStateKey id2 otype = (key, None) ->
  id1 = id2.
Proof.
  split_kind otype; intros H1 H2; try discriminate;
    rewrite <- H2 in H1; injection H1 as H1; exact (append_inj_l _ _ _ H1).
Qed.

Lemma AddKey_run_ok (id keysName : string) stub :
  keys_readable stub keysName ->
  AddKey id keysName stub =
  ((true, None), put maKeysName (Marshal (go_append (keys_read stub keysName) id)) stub).
Proof.
  intros Hk. unfold keys_readable, keys_read in *. unfold AddKey.
  rewrite bind_run. run. change (bool_decide (None <> None)) with false.
  cbv beta iota delta [orb].
  destruct (len (stored stub keysName) =? 0) eqn:E; [reflexivity |].
  apply Z.eqb_neq in E. destruct Hk as [Hk | Hk]; [contradiction |].
  destruct (Unmarshal (stored stub keysName)) as [l e]. simpl in Hk. subst e. reflexivity.
Qed.

(** X3. What [AddKey] does: when the list under [keysName] is absent or
    decodes, it stores that list with [id] at its end under ["maKeys"],
    whatever [keysName] is, reports success and changes no other entry;
    when the list does not decode it fails and changes nothing. *)
Theorem AddKey_effect (id keysName : string) stub :
  let stub' := exec (AddKey id keysName) stub in
  (keys_readable stub keysName ->
   eval (AddKey id keysName) stub = (true, None) /\
   State stub' !! maKeysName = Some (Marshal (go_append (keys_read stub keysName) id)) /\
   forall k, k <> maKeysName -> State stub' !! k = State stub !! k) /\
  (~ keys_readable stub keysName ->
   fst (eval (AddKey id keysName) stub) = false /\
   snd (eval (AddKey id keysName) stub) <> None /\
   stub' = stub).
Proof.
  cbv zeta. unfold keys_readable, keys_read, AddKey. run.
  change (bool_decide (None <> None)) with false. cbv beta iota delta [orb].
  destruct (len (stored stub keysName) =? 0) eqn:E.
  - run. split.
    + intros _. split; [reflexivity |]. split; [apply State_put_eq |].
      intros k Hk. apply State_put_ne. congruence.
    + intros Hn. exfalso. apply Hn. left. apply Z.eqb_eq, E.
  - apply Z.eqb_neq in E.
    destruct (Unmarshal (stored stub keysName)) as [l [e |]]; run; simpl.
    + split; [intros [Hk | Hk]; [contradiction | discriminate] |].
      intros _. split; [reflexivity |]. split; [discriminate | reflexivity].
    + split; [| intros Hn; exfalso; apply Hn; right; reflexivity].
      intros _. split; [reflexivity |]. split; [apply State_put_eq |].
      intros k Hk. apply State_put_ne. congruence.
Qed.

(** X4. The three [Get*] operations never write: whatever the caller and
    the arguments, found or not, allowed or refused, the stub after the
    call is the stub before it. *)
Theorem Get_never_writes callerId aff args stub :
  exec (GetMortgageApplication callerId aff args) stub = stub /\
  exec (GetAppraiserApplication callerId aff args) stub = stub /\
  exec (GetSalesContract callerId aff args) stub = stub.
Proof.
  split; [apply exec_GetMortgageApplication |]. split; [apply exec_GetAppraiserApplication |].
  unfold GetSalesContract. destruct args as [| maId args]; [reflexivity |].
  change (GetStateKey maId SALESCONTRACT) with (typeSalesContract +:+ maId, @None string).
  run. destruct (Unmarshal _) as [ma [e |]]; [reflexivity |].
  destruct (_ || _); reflexivity.
Qed.

(** X5. With fewer than two arguments every [Create*] and [Update*] fails
    with its own message and leaves the stub as it is. *)
Theorem too_few_arguments callerId aff args stub :
  (List.length args < 2)%nat ->
  CreateMortgageApplication callerId aff args stub =
    (("", errors_New "Could not create MortgageApplication. Invalid input"), stub) /\
  CreateAppraiserApplication callerId aff args stub =
    (("", errors_New "Could not create CreateAppraiserApplication. Invalid input"), stub) /\
  CreateSalesContract callerId aff args stub =
    (("", errors_New "Could not create CreateSalesContract. Invalid input"), stub) /\
  UpdateMortgageApplication callerId aff args stub =
    (("", errors_New "Could not update mortgageApplication. No parameters provided for update "),
     stub) /\
  UpdateAppraiserApplication callerId aff args stub =
    (("", errors_New "Could not update appraiserApplication. No parameters provided for update "),
     stub) /\
  UpdateSalesContract callerId aff args stub =
    (("", errors_New "Could not update salesContract. No parameters provided for update "), stub).
Proof.
  intros Hlen. destruct args as [| a [| b args]]; simpl in Hlen; try lia;
    repeat split; reflexivity.
Qed.

(** X6. The role gates of creation: an appraiser application is created by
    a bank only and a sales contract by a buyer only; any other role gets
    an error and nothing is written, not even the document. *)
Theorem Create_role_gate callerId aff id body rest stub :
  (aff <> BANK_A ->
   CreateAppraiserApplication callerId aff (id :: body :: rest) stub =
   (("", errors_New (callerId +:+ " is not allowed to create appraiser application")), stub)) /\
  (aff <> BUYER_A ->
   CreateSalesContract callerId aff (id :: body :: rest) stub =
   (("", errors_New (callerId +:+ " is not allowed to create seller contract")), stub)).
Proof.
  split; intros Hne; apply Z.eqb_neq in Hne.
  - unfold CreateAppraiserApplication. rewrite Hne. reflexivity.
  - unfold CreateSalesContract. rewrite Hne. reflexivity.
Qed.

(** X7. [UpdateMortgageApplication] refuses a caller who is neither the
    reviewer of the stored application nor has the role Appraiser, and
    writes nothing. *)
Theorem UpdateMortgageApplication_refused stub callerId aff id payload
    (ma : MortgageApplication) (u : MAUpdateSchema) :
  Unmarshal (stored stub (typeMortgageApplication +:+ id)) = (ma, None) ->
  Unmarshal payload = (u, None) ->
  callerId <> MA_ReviewerId ma ->
  aff <> APPRAISER_A ->
  UpdateMortgageApplication callerId aff [id; payload] stub =
  (("", errors_New ("User with id " +:+ callerId +:+
        "does not have rights to update the mortgage application")), stub).
Proof.
  intros Hma Hu Hrev Hrole.
  rewrite (UpdateMortgageApplication_run _ _ _ _ _ ma u Hma Hu). cbv zeta.
  rewrite (eqb_false _ _ Hrev). apply Z.eqb_neq in Hrole. rewrite Hrole. reflexivity.
Qed.

(** X8. [UpdateMortgageApplication] with nothing to apply is a no-op that
    succeeds with no bytes: for the reviewer when status and sales contract
    id are blank after trimming and the approved amount is zero, and for an
    appraiser who is not the reviewer when the fair market value is zero. *)
Theorem UpdateMortgageApplication_nothing_to_update stub callerId aff id payload
    (ma : MortgageApplication) (u : MAUpdateSchema) :
  Unmarshal (stored stub (typeMortgageApplication +:+ id)) = (ma, None) ->
  Unmarshal payload = (u, None) ->
  (callerId = MA_ReviewerId ma /\ strings_TrimSpace (MAU_Status u) = "" /\
   strings_TrimSpace (MAU_SalesContractId u) = "" /\ MAU_ApprovedAmount u = 0) \/
  (callerId <> MA_ReviewerId ma /\ aff = APPRAISER_A /\ MAU_FairMarketValue u = 0) ->
  UpdateMortgageApplication callerId aff [id; payload] stub = (("", None), stub).
Proof.
  intros Hma Hu Hcase.
  rewrite (UpdateMortgageApplication_run _ _ _ _ _ ma u Hma Hu). cbv zeta.
  destruct Hcase as [(-> & Hst & Hsc & Ham) | (Hrev & -> & Hfmv)].
  - rewrite String.eqb_refl, Hst, Hsc, Ham. reflexivity.
  - rewrite (eqb_false _ _ Hrev), Hfmv. reflexivity.
Qed.

End More.

Section MoreUpdates.
Context `{GoLib}.
Local Open Scope go_scope.

Lemma exec_GetSalesContract callerId aff args stub :
  exec (GetSalesContract callerId aff args) stub = stub.
Proof.
  unfold GetSalesContract. destruct args as [| maId args]; [reflexivity |].
  change (GetStateKey maId SALESCONTRACT) with (typeSalesContract +:+ maId, @None string).
  run. destruct (Unmarshal _) as [ma [e |]]; [reflexivity |].
  destruct (_ || _); reflexivity.
Qed.

(** X9. Only the seller or the buyer of a stored sales contract can update
    it: any other caller, auditors and banks included, gets an error and
    nothing is written. *)
Theorem UpdateSalesContract_by_outsider stub callerId aff id payload (sc : SalesContract) :
  Unmarshal (stored stub (typeSalesContract +:+ id)) = (sc, None) ->
  callerId <> SC_SellerId sc ->
  callerId <> SC_BuyerId sc ->
  exists e, UpdateSalesContract callerId aff [id; payload] stub = (("", Some e), stub).
Proof.
  intros Hsc Hs Hb. unfold UpdateSalesContract.
  rewrite bind_run, exec_GetSalesContract. unfold eval.
  rewrite (GetSalesContract_run _ _ _ _ sc Hsc), (eqb_false _ _ Hs), (eqb_false _ _ Hb).
  cbn [orb fst].
  destruct ((aff =? AUDITOR_A) || (aff =? BANK_A)); cbv beta iota;
    [rewrite (eqb_false _ _ Hs), (eqb_false _ _ Hb) |]; eexists; reflexivity.
Qed.

(** X10. Only the appraiser named in a stored appraiser application can
    update it: any other caller gets an error and nothing is written. *)
Theorem UpdateAppraiserApplication_by_outsider stub callerId aff id payload
    (aa : AppraiserApplication) :
  Unmarshal (stored stub (typeAppraiserApplication +:+ id)) = (aa, None) ->
  callerId <> AA_AppraiserId aa ->
  exists e, UpdateAppraiserApplication callerId aff [id; payload] stub = (("", Some e), stub).
Proof.
  intros Haa Ha. unfold UpdateAppraiserApplication.
  rewrite bind_run, exec_GetAppraiserApplication. unfold eval.
  rewrite (GetAppraiserApplication_run _ _ _ _ aa Haa), (eqb_false _ _ Ha).
  cbn [orb fst].
  destruct (String.eqb callerId (AA_ReviewerId aa) || (aff =? AUDITOR_A));
    cbv beta iota; [rewrite (eqb_false _ _ Ha) |]; eexists; reflexivity.
Qed.




(** X12. A [Create*] touches no document but its own: the ledger entry of
    every other mortgage application, appraiser application and sales
    contract is after the call what it was before. *)
Theorem Create_keeps_other_documents kind callerId aff id body stub kind' id' :
  (kind', id') <> (kind, id) ->
  State (exec (Create kind callerId aff [id; body]) stub) !! docKey kind' id' =
  State stub !! docKey kind' id'.
Proof.
  intros Hne. destruct kind; unfold Create.
  - apply (ww_lookup [typeMortgageApplication +:+ id; maKeysName; typeUser +:+ callerId;
                      typeUser +:+ MA_ReviewerId (fst (Unmarshal body));
                      typeMALog +:+ id; maLogKeysName; bcLogsKey]).
    + unfold CreateMortgageApplication.
      change (GetStateKey id MORTGAGEAPPLICATION)
        with (typeMortgageApplication +:+ id, @None string).
      cbv beta iota. ww_ops.
    + destruct kind'; unfold docKey; notin.
  - apply (ww_lookup [typeAppraiserApplication +:+ id; maKeysName;
                      typeUser +:+ AA_AppraiserId (fst (Unmarshal body));
                      typeMALog +:+ id; maLogKeysName; bcLogsKey]).
    + unfold CreateAppraiserApplication.
      change (GetStateKey id APPRAISERAPPLICATION)
        with (typeAppraiserApplication +:+ id, @None string).
      cbv beta iota. ww_ops.
    + destruct kind'; unfold docKey; notin.
  - apply (ww_lookup [typeSalesContract +:+ id; maKeysName;
                      typeUser +:+ SC_SellerId (fst (Unmarshal body)); typeUser +:+ callerId;
                      typeUser +:+ SC_ReviewerId (fst (Unmarshal body));
                      typeMALog +:+ id; maLogKeysName; bcLogsKey]).
    + unfold CreateSalesContract.
      change (GetStateKey id SALESCONTRACT) with (typeSalesContract +:+ id, @None string).
      cbv beta iota. ww_ops.
    + destruct kind'; unfold docKey; notin.
Qed.

(** X13. The two log queries are for auditors: any other role gets an
    error before anything is read.  For an auditor [GetAuditorBCLogs]
    returns the encoding of the global log as [GetBCLogs] reads it, and
    writes nothing. *)
Theorem auditor_log_queries callerId aff args stub :
  (aff <> AUDITOR_A ->
   GetAuditorBCLogs callerId aff args stub =
   (("", errors_New ("caller " +:+ callerId +:+ " does not have rights to access auditor logs")),
    stub) /\
   forall id rest,
     GetAuditorMALogs callerId aff (id :: rest) stub =
     (("", errors_New ("caller " +:+ callerId +:+
                       " does not have rights to access auditor logs")), stub)) /\
  (aff = AUDITOR_A ->
   snd (eval GetBCLogs stub) = None ->
   GetAuditorBCLogs callerId aff args stub = ((Marshal (fst (eval GetBCLogs stub)), None), stub)).
Proof.
  split.
  - intros Hne. apply Z.eqb_neq in Hne. unfold GetAuditorBCLogs, GetAuditorMALogs.
    rewrite Hne. split; [reflexivity | intros; reflexivity].
  - intros -> Hok. unfold GetAuditorBCLogs. change (negb (AUDITOR_A =? AUDITOR_A)) with false.
    cbv beta iota. rewrite bind_run, exec_GetBCLogs.
    destruct (eval GetBCLogs stub) as [logs e]. simpl in Hok. subst e. reflexivity.
Qed.

End MoreUpdates.

Section MoreCreate.
Context `{GoLib}.
Local Open Scope go_scope.

Lemma GetAppraiser_eval_ext key stub stub' :
  State stub' !! key = State stub !! key ->
  eval (GetAppraiser key) stub' = eval (GetAppraiser key) stub.
Proof.
  intros E. unfold GetAppraiser. run. rewrite (stored_ext _ _ _ E).
  destruct (len _ =? 0); run; [reflexivity|].
  destruct (Unmarshal _) as [b [e|]]; reflexivity.
Qed.

Lemma eval_SaveAppraiser a id stub : eval (SaveAppraiser a id) stub = None.
Proof. reflexivity. Qed.
Lemma exec_SaveAppraiser a id stub : exec (SaveAppraiser a id) stub = put id (Marshal a) stub.
Proof. reflexivity. Qed.

(** X14. A bank creates an appraiser application with a well-formed body
    while the list under ["aaKeys"] is absent or decodes.  The call
    succeeds; the record stored for the appraiser named in the body is the
    record read before (or a fresh one) with the id appended to
    [appraiserApplications]; and the registry written is the one under
    ["maKeys"], which now holds the list read from ["aaKeys"] followed by
    the key of the new document. *)
Theorem CreateAppraiserApplication_effect stub callerId id body (aa : AppraiserApplication) :
  Unmarshal body = (aa, None) ->
  keys_readable stub aaKeysName ->
  let aaKey := typeAppraiserApplication +:+ id in
  let userKey := typeUser +:+ AA_AppraiserId aa in
  let appraiser := fst (eval (GetAppraiser userKey) stub) in
  let appraiser' := Appraiser_set_AppraiserApplications appraiser
                      (go_append (Appraiser_AppraiserApplications appraiser) id) in
  let stub' := exec (CreateAppraiserApplication callerId BANK_A [id; body]) stub in
  eval (CreateAppraiserApplication callerId BANK_A [id; body]) stub = ("", None) /\
  State stub' !! aaKey = Some body /\
  State stub' !! userKey = Some (Marshal appraiser') /\
  State stub' !! maKeysName =
    Some (Marshal (go_append (keys_read stub aaKeysName) aaKey)).
Proof.
  intros Haa Hkeys aaKey userKey appraiser appraiser' stub'.
  set (s1 := put aaKey body stub).
  assert (keys_readable s1 aaKeysName) as Hkeys1.
  { eapply keys_readable_ext; [| exact Hkeys]. apply State_put_ne. discriminate. }
  assert (keys_read s1 aaKeysName = keys_read stub aaKeysName) as Hread.
  { unfold keys_read, s1. rewrite (stored_put_ne aaKey body stub aaKeysName); [reflexivity |].
    discriminate. }
  set (s2 := put maKeysName (Marshal (go_append (keys_read stub aaKeysName) aaKey)) s1).
  assert (State s2 !! userKey = State stub !! userKey) as Hs2.
  { unfold s2, s1. rewrite !State_put_ne; [reflexivity | discriminate | discriminate]. }
  assert (CreateAppraiserApplication callerId BANK_A [id; body] stub =
          (("", None),
           exec (AppendMALog "CreateAppraiserApplication"
                   (callerId +:+ " Submitted new AppraiserApplication") "Submitted" id)
             (put userKey (Marshal appraiser') (exec (GetAppraiser userKey) s2)))) as Hrun.
  { unfold CreateAppraiserApplication.
    change (negb (BANK_A =? BANK_A)) with false.
    change (GetStateKey id APPRAISERAPPLICATION)
      with (typeAppraiserApplication +:+ id, @None string).
    cbv beta iota. rewrite bind_run, eval_PutState, exec_PutState. cbv beta iota.
    rewrite Haa. cbv beta iota. fold aaKey s1.
    rewrite bind_run. unfold eval at 1, exec at 1.
    rewrite (AddKey_run_ok aaKey aaKeysName s1 Hkeys1), Hread. cbv beta iota delta [fst snd].
    fold s2.
    change (GetStateKey (AA_AppraiserId aa) USER)
      with (typeUser +:+ AA_AppraiserId aa, @None string).
    cbv beta iota. fold userKey. rewrite bind_run.
    rewrite (GetAppraiser_eval_ext userKey stub s2 Hs2).
    fold appraiser. destruct (eval (GetAppraiser userKey) stub) as [a0 e0] eqn:E0.
    cbv beta iota. rewrite bind_run, eval_SaveAppraiser, exec_SaveAppraiser. cbv beta iota.
    rewrite bind_run. reflexivity. }
  unfold stub', eval, exec at 1 2 3. rewrite Hrun. cbv beta iota delta [fst snd].
  split; [reflexivity |].
  assert (forall k, k <> userKey -> k <> typeMALog +:+ id -> k <> maLogKeysName ->
                    k <> bcLogsKey ->
                    State (exec (AppendMALog "CreateAppraiserApplication"
                                   (callerId +:+ " Submitted new AppraiserApplication")
                                   "Submitted" id)
                             (put userKey (Marshal appraiser') (exec (GetAppraiser userKey) s2)))
                    !! k = State s2 !! k) as Hother.
  { intros k H1 H2 H3 H4. rewrite AppendMALog_keeps by (notin; congruence).
    rewrite State_put_ne by congruence.
    apply (ww_lookup [userKey]); [ww_ops |]. rewrite list_elem_of_singleton. exact H1. }
  split; [| split].
  - rewrite Hother by (unfold aaKey, userKey; key_ne).
    unfold s2. rewrite State_put_ne by discriminate. apply State_put_eq.
  - rewrite AppendMALog_keeps by (unfold userKey; notin). apply State_put_eq.
  - rewrite Hother by (unfold userKey; key_ne). apply State_put_eq.
Qed.

Lemma AppendMALog_ok_global action text status id stub :
  eval (AppendMALog action text status id) stub = None ->
  State (exec (AppendMALog action text status id) stub) !! bcLogsKey =
  Some (Marshal (go_append (fst (eval GetBCLogs stub))
                   (newMALog action text status id (time_Format (Clock stub))))).
Proof.
  unfold AppendMALog.
  change (GetStateKey id MALOG) with (typeMALog +:+ id, @None string). run.
  destruct (eval (GetMALogHolder _) _) as [lh err] eqn:E. run.
  rewrite eval_SaveMALogHolder, exec_SaveMALogHolder. cbv iota beta. run.
  rewrite exec_GetMALogKeys.
  set (s3 := put (typeMALog +:+ id) _ _).
  assert (State s3 !! bcLogsKey = State stub !! bcLogsKey) as Hs3.
  { unfold s3. rewrite State_put_ne by discriminate.
    rewrite GetMALogHolder_keeps by discriminate. reflexivity. }
  destruct (eval GetMALogKeys s3) as [keys [e |]]; run; [discriminate |].
  rewrite exec_SaveMALogKeys, exec_GetBCLogs.
  set (s4 := put maLogKeysName _ s3).
  assert (State s4 !! bcLogsKey = State stub !! bcLogsKey) as Hs4.
  { unfold s4. rewrite State_put_ne by discriminate. exact Hs3. }
  rewrite (GetBCLogs_eval_ext stub s4 Hs4).
  destruct (eval GetBCLogs stub) as [logs [e |]]; run; [discriminate |].
  intros _. rewrite exec_SaveBCLogs. apply State_put_eq.
Qed.

(** X15. What is logged can be read back by an auditor: after an
    [AppendMALog] that returned no error, [GetAuditorBCLogs] by an auditor
    returns the encoding of the global log read before the call followed
    by the new entry (the given action, text, status and document id, the
    clock's timestamp, empty buyer and reviewer ids), provided the JSON
    library decodes that encoding back to the list it encodes. *)
Theorem AppendMALog_then_GetAuditorBCLogs action text status id callerId args stub :
  let e := {| Log_MortgageApplicationId := id;
              Log_BuyerId := "";
              Log_ReviewerId := "";
              Log_Status := status;
              Log_Action := action;
              Log_Text := text;
              Log_Timestamp := time_Format (Clock stub) |} in
  let logs' := go_append (fst (eval GetBCLogs stub)) e in
  eval (AppendMALog action text status id) stub = None ->
  len (Marshal logs') <> 0 ->
  Unmarshal (Marshal logs') = (logs', None) ->
  eval (GetAuditorBCLogs callerId AUDITOR_A args)
       (exec (AppendMALog action text status id) stub) = (Marshal logs', None).
Proof.
  intros e logs' Hok Hlen Hround.
  pose proof (AppendMALog_ok_global action text status id stub Hok) as Hst.
  unfold newMALog in Hst. fold e in Hst. fold logs' in Hst. apply stored_Some in Hst.
  unfold GetAuditorBCLogs. change (negb (AUDITOR_A =? AUDITOR_A)) with false.
  cbv beta iota. rewrite eval_bind.
  assert (eval GetBCLogs (exec (AppendMALog action text status id) stub) = (logs', None)) as Hget.
  { unfold GetBCLogs. run. rewrite Hst.
    apply Z.eqb_neq in Hlen. rewrite Hlen, Hround. reflexivity. }
  rewrite Hget. reflexivity.
Qed.

End MoreCreate.

Section MoreCreateSC.
Context `{GoLib}.
Local Open Scope go_scope.

Lemma GetSeller_eval_ext key stub stub' :
  State stub' !! key = State stub !! key ->
  eval (GetSeller key) stub' = eval (GetSeller key) stub.
Proof.
  intros E. unfold GetSeller. run. rewrite (stored_ext _ _ _ E).
  destruct (len _ =? 0); run; [reflexivity|].
  destruct (Unmarshal _) as [b [e|]]; reflexivity.
Qed.

Lemma eval_SaveSeller a id stub : eval (SaveSeller a id) stub = None.
Proof. reflexivity. Qed.
Lemma exec_SaveSeller a id stub : exec (SaveSeller a id) stub = put id (Marshal a) stub.
Proof. reflexivity. Qed.

Lemma party_keeps {A} (c : M A) key stub k :
  writes_within [key] c -> k <> key -> State (exec c stub) !! k = State stub !! k.
Proof.
  intros Hc Hk. apply (ww_lookup [key]); [exact Hc |]. rewrite list_elem_of_singleton. exact Hk.
Qed.

(** X16. A buyer creates a sales contract with a well-formed body whose
    seller, buyer (the caller) and reviewing bank are three different
    parties, while the list under ["scKeys"] is absent or decodes.  The
    call succeeds and the records stored for the seller, the buyer and the
    bank are the records read before (or fresh ones) with the id appended
    to [salesContracts]. *)
Theorem CreateSalesContract_effect stub callerId id body (sc : SalesContract) :
  Unmarshal body = (sc, None) ->
  keys_readable stub scKeysName ->
  SC_SellerId sc <> callerId ->
  SC_ReviewerId sc <> callerId ->
  SC_SellerId sc <> SC_ReviewerId sc ->
  let sellerKey := typeUser +:+ SC_SellerId sc in
  let buyerKey := typeUser +:+ callerId in
  let bankKey := typeUser +:+ SC_ReviewerId sc in
  let seller := fst (eval (GetSeller sellerKey) stub) in
  let buyer := fst (eval (GetBuyer buyerKey) stub) in
  let bank := fst (eval (GetBank bankKey) stub) in
  let stub' := exec (CreateSalesContract callerId BUYER_A [id; body]) stub in
  eval (CreateSalesContract callerId BUYER_A [id; body]) stub = ("", None) /\
  State stub' !! sellerKey =
    Some (Marshal (Seller_set_SalesContracts seller
                     (go_append (Seller_SalesContracts seller) id))) /\
  State stub' !! buyerKey =
    Some (Marshal (Buyer_set_SalesContracts buyer
                     (go_append (Buyer_SalesContracts buyer) id))) /\
  State stub' !! bankKey =
    Some (Marshal (Bank_set_SalesContracts bank
                     (go_append (Bank_SalesContracts bank) id))).
Proof.
  intros Hsc Hkeys Hsb Hrb Hsr sellerKey buyerKey bankKey seller buyer bank stub'.
  set (scKey := typeSalesContract +:+ id).
  set (s1 := put scKey body stub).
  assert (keys_readable s1 scKeysName) as Hkeys1.
  { eapply keys_readable_ext; [| exact Hkeys]. apply State_put_ne. discriminate. }
  set (s2 := put maKeysName (Marshal (go_append (keys_read s1 scKeysName) scKey)) s1).
  assert (forall k, k <> scKey -> k <> maKeysName -> State s2 !! k = State stub !! k) as Hs2.
  { intros k H1 H2. unfold s2, s1. rewrite !State_put_ne by congruence. reflexivity. }
  set (seller' := Seller_set_SalesContracts seller (go_append (Seller_SalesContracts seller) id)).
  set (s3 := put sellerKey (Marshal seller') (exec (GetSeller sellerKey) s2)).
  set (buyer' := Buyer_set_SalesContracts buyer (go_append (Buyer_SalesContracts buyer) id)).
  set (s4 := put buyerKey (Marshal buyer') (exec (GetBuyer buyerKey) s3)).
  set (bank' := Bank_set_SalesContracts bank (go_append (Bank_SalesContracts bank) id)).
  set (s5 := put bankKey (Marshal bank') (exec (GetBank bankKey) s4)).
  assert (sellerKey <> buyerKey) as Hk1 by (unfold sellerKey, buyerKey; key_ne).
  assert (bankKey <> buyerKey) as Hk2 by (unfold bankKey, buyerKey; key_ne).
  assert (sellerKey <> bankKey) as Hk3 by (unfold sellerKey, bankKey; key_ne).
  assert (State s2 !! sellerKey = State stub !! sellerKey) as H2s
    by (apply Hs2; unfold sellerKey, scKey; discriminate).
  assert (State s3 !! buyerKey = State stub !! buyerKey) as H3b.
  { unfold s3. rewrite State_put_ne by exact Hk1.
    rewrite (party_keeps (GetSeller sellerKey) sellerKey) by (ww_ops || congruence).
    apply Hs2; unfold buyerKey, scKey; discriminate. }
  assert (State s4 !! bankKey = State stub !! bankKey) as H4k.
  { unfold s4. rewrite State_put_ne by congruence.
    rewrite (party_keeps (GetBuyer buyerKey) buyerKey) by (ww_ops || congruence).
    unfold s3. rewrite State_put_ne by exact Hk3.
    rewrite (party_keeps (GetSeller sellerKey) sellerKey) by (ww_ops || congruence).
    apply Hs2; unfold bankKey, scKey; discriminate. }
  assert (CreateSalesContract callerId BUYER_A [id; body] stub =
          (("", None),
           exec (AppendMALog "CreateSalesContract" (callerId +:+ " Submitted new SalesContract")
                   "Submitted" id) s5)) as Hrun.
  { unfold CreateSalesContract.
    change (negb (BUYER_A =? BUYER_A)) with false.
    change (GetStateKey id SALESCONTRACT) with (typeSalesContract +:+ id, @None string).
    cbv beta iota. rewrite Hsc. cbv beta iota zeta.
    rewrite bind_run, eval_PutState, exec_PutState. cbv beta iota. fold scKey s1.
    rewrite bind_run. unfold eval at 1, exec at 1.
    rewrite (AddKey_run_ok scKey scKeysName s1 Hkeys1). cbv beta iota delta [fst snd].
    fold s2.
    change (GetStateKey (SC_SellerId sc) USER) with (typeUser +:+ SC_SellerId sc, @None string).
    cbv beta iota. fold sellerKey. rewrite bind_run.
    rewrite (GetSeller_eval_ext sellerKey stub s2 H2s). fold seller.
    destruct (eval (GetSeller sellerKey) stub) as [x0 e0] eqn:E0.
    cbv beta iota. rewrite bind_run, eval_SaveSeller, exec_SaveSeller. cbv beta iota.
    change (GetStateKey callerId USER) with (typeUser +:+ callerId, @None string).
    cbv beta iota. fold buyerKey. unfold seller in seller'. cbn [fst] in seller'.
    fold seller' s3. rewrite bind_run.
    rewrite (GetBuyer_eval_ext buyerKey stub s3 H3b). fold buyer.
    destruct (eval (GetBuyer buyerKey) stub) as [x1 e1] eqn:E1.
    cbv beta iota. rewrite bind_run, eval_SaveBuyer, exec_SaveBuyer. cbv beta iota.
    change (GetStateKey (SC_ReviewerId sc) USER)
      with (typeUser +:+ SC_ReviewerId sc, @None string).
    cbv beta iota. fold bankKey. unfold buyer in buyer'. cbn [fst] in buyer'.
    fold buyer' s4. rewrite bind_run.
    rewrite (GetBank_eval_ext bankKey stub s4 H4k). fold bank.
    destruct (eval (GetBank bankKey) stub) as [x2 e2] eqn:E2.
    cbv beta iota. rewrite bind_run, eval_SaveBank, exec_SaveBank. cbv beta iota.
    unfold bank in bank'. cbn [fst] in bank'. fold bank' s5.
    rewrite bind_run. reflexivity. }
  unfold stub', eval, exec at 1 2 3. rewrite Hrun. cbv beta iota delta [fst snd].
  split; [reflexivity |]. split; [| split].
  - rewrite AppendMALog_keeps by (unfold sellerKey; notin).
    unfold s5. rewrite State_put_ne by congruence.
    rewrite (party_keeps (GetBank bankKey) bankKey) by (ww_ops || congruence).
    unfold s4. rewrite State_put_ne by congruence.
    rewrite (party_keeps (GetBuyer buyerKey) buyerKey) by (ww_ops || congruence).
    apply State_put_eq.
  - rewrite AppendMALog_keeps by (unfold buyerKey; notin).
    unfold s5. rewrite State_put_ne by congruence.
    rewrite (party_keeps (GetBank bankKey) bankKey) by (ww_ops || congruence).
    apply State_put_eq.
  - rewrite AppendMALog_keeps by (unfold bankKey; notin). apply State_put_eq.
Qed.

End MoreCreateSC.

(** ** The chaincode on the session of [Scenario] *)

Module Examples.
Import GoJson Scenario.

Ltac conj := repeat match goal with |- _ /\ _ => split end.

(** C2. [AddKey] reads the list named [keysName] and writes the extended
    list under ["maKeys"]: asked to register a sales contract under
    ["scKeys"] on a ledger whose ["maKeys"] lists [ma:ma1], it reports
    success, leaves ["scKeys"] absent and replaces the list under
    ["maKeys"] by the one-element list of the new key. *)
Theorem AddKey_writes_under_maKeys :
  let stub' := exec (AddKey "sc:sc1" scKeysName) ledger1 in
  eval (AddKey "sc:sc1" scKeysName) ledger1 = (true, None) /\
  State ledger1 !! scKeysName = None /\
  State stub' !! scKeysName = None /\
  State ledger1 !! maKeysName = Some (js "['ma:ma1']") /\
  State stub' !! maKeysName = Some (js "['sc:sc1']").
Proof. cbv zeta. conj; vm_compute; reflexivity. Qed.

(** C3. With a payload whose fields are all blank or zero,
    [UpdateSalesContract] by the buyer and [UpdateAppraiserApplication] by
    the appraiser still rewrite the document (the stored bytes change to
    the re-encoded struct) and append an audit entry with an empty text,
    while [UpdateMortgageApplication] by the reviewer leaves the stub as it
    is. *)
Theorem Update_with_nothing_to_update :
  let after_sc := exec (UpdateSalesContract "alice" BUYER_A ["sc1"; sc_nothing]) ledger3 in
  let after_aa := exec (UpdateAppraiserApplication "eve" APPRAISER_A ["aa1"; aa_nothing]) ledger3 in
  let after_ma := exec (UpdateMortgageApplication "bank1" BANK_A ["ma1"; ma_nothing]) ledger3 in
  (snd (eval (UpdateSalesContract "alice" BUYER_A ["sc1"; sc_nothing]) ledger3) = None /\
   State ledger3 !! "sc:sc1" = Some sc1_body /\
   State after_sc !! "sc:sc1" = Some (Marshal sc1) /\
   Marshal sc1 <> sc1_body /\
   elems (MALogs (fst (eval (GetMALogHolder "malog:sc1") after_sc))) =
   elems (MALogs (fst (eval (GetMALogHolder "malog:sc1") ledger3))) ++
   [newMALog "UpdateSalesContract" "" "" "sc1" (clock 0)]) /\
  (eval (UpdateAppraiserApplication "eve" APPRAISER_A ["aa1"; aa_nothing]) ledger3 = ("", None) /\
   State ledger3 !! "aa:aa1" = Some aa1_body /\
   State after_aa !! "aa:aa1" = Some (Marshal aa1) /\
   Marshal aa1 <> aa1_body /\
   elems (MALogs (fst (eval (GetMALogHolder "malog:aa1") after_aa))) =
   elems (MALogs (fst (eval (GetMALogHolder "malog:aa1") ledger3))) ++
   [newMALog "UpdateAppraiserApplication" "" "" "aa1" (clock 0)]) /\
  (eval (UpdateMortgageApplication "bank1" BANK_A ["ma1"; ma_nothing]) ledger3 = ("", None) /\
   after_ma = ledger3).
Proof.
  cbv zeta. conj; try (vm_compute; reflexivity); vm_compute; discriminate.
Qed.

(** C6 fails as stated: [bank2] is neither the seller, the buyer nor the
    reviewer of [sc1] and is no auditor, and [GetSalesContract] hands it
    the contract all the same, because it has the role of a bank. *)
Lemma GetSalesContract_any_bank_reads :
  eval (GetSalesContract "bank2" BANK_A ["sc1"]) ledger3 = (sc1, sc1_body, None) /\
  "bank2" <> SC_SellerId sc1 /\
  "bank2" <> SC_BuyerId sc1 /\
  "bank2" <> SC_ReviewerId sc1 /\
  BANK_A <> AUDITOR_A.
Proof. conj; try (vm_compute; reflexivity); vm_compute; discriminate. Qed.

(** C7 fails as stated.  Eve is the appraiser of [aa2] and has the role
    Appraiser, but she is also named as reviewer of the linked [ma2]: her
    update with value 500000 succeeds and stores the value in [aa2], while
    the cascaded call takes the reviewer's branch, finds nothing to update
    and leaves [ma2] as it was, with fair market value 0.  And when the
    appraiser named in [aa1] calls in another role, the appraiser
    application is rewritten with the value and the cascaded call is
    refused, so the mortgage application stays as it was. *)
Lemma UpdateAppraiserApplication_cascade_lost :
  let after := exec (UpdateAppraiserApplication "eve" APPRAISER_A ["aa2"; aa_value]) ledger4 in
  let after' := exec (UpdateAppraiserApplication "eve" BUYER_A ["aa1"; aa_value]) ledger3 in
  ("eve" = AA_AppraiserId aa2 /\
   AA_MortgageApplicationId aa2 = "ma2" /\
   eval (UpdateAppraiserApplication "eve" APPRAISER_A ["aa2"; aa_value]) ledger4 = ("", None) /\
   State after !! "aa:aa2" = Some (Marshal (AA_set_FairMarketValue aa2 500000)) /\
   State after !! "ma:ma2" = Some ma2_body /\
   MA_FairMarketValue (fst (fst (eval (GetMortgageApplication "alice" BUYER_A ["ma2"]) after)))
   = 0) /\
  ("eve" = AA_AppraiserId aa1 /\
   AA_MortgageApplicationId aa1 = "ma1" /\
   eval (UpdateAppraiserApplication "eve" BUYER_A ["aa1"; aa_value]) ledger3 =
   ("", Some "User with id evedoes not have rights to update the mortgage application") /\
   State after' !! "aa:aa1" = Some (Marshal (AA_set_FairMarketValue aa1 500000)) /\
   State after' !! "ma:ma1" = Some ma1_body /\
   MA_FairMarketValue (fst (fst (eval (GetMortgageApplication "alice" BUYER_A ["ma1"]) after')))
   = 0).
Proof. cbv zeta. conj; vm_compute; reflexivity. Qed.

Lemma CreateMortgageApplication_then_Get_witness :
  eval (CreateMortgageApplication "alice" BUYER_A ["ma1"; ma1_body]) empty_stub = ("", None) /\
  eval (GetMortgageApplication "alice" BUYER_A ["ma1"]) ledger1 = (ma1, ma1_body, None) /\
  State ledger1 !! "user:alice" =
    Some (js "{'id':'user:alice','affiliation':1,'mortgageApplications':['ma1'],'salesContracts':[]}") /\
  State ledger1 !! "user:bank1" =
    Some (js "{'id':'user:bank1','affiliation':3,'mortgageApplications':['ma1'],'salesContracts':[]}").
Proof.
  assert (Unmarshal ma1_body = (ma1, None)) as Hma by (vm_compute; reflexivity).
  assert (MA_BuyerId ma1 = "alice") as Hbuyer by (vm_compute; reflexivity).
  assert (MA_ReviewerId ma1 <> "alice") as Hbank by (vm_compute; discriminate).
  assert (keys_readable empty_stub maKeysName) as Hkeys by (left; vm_compute; reflexivity).
  assert ("ma1" ∉ elems (Buyer_MortgageApplications
                           (fst (eval (GetBuyer (typeUser +:+ "alice")) empty_stub)))) as Hf1
    by (vm_compute; apply not_elem_of_nil).
  assert ("ma1" ∉ elems (Bank_MortgageApplications
                           (fst (eval (GetBank (typeUser +:+ MA_ReviewerId ma1)) empty_stub))))
    as Hf2 by (vm_compute; apply not_elem_of_nil).
  pose proof (CreateMortgageApplication_then_Get empty_stub "alice" BUYER_A "ma1" ma1_body ma1
                Hma Hbuyer Hbank Hkeys Hf1 Hf2) as (H1 & H2 & H3 & _ & H5 & _).
  split; [exact H1 |]. split; [exact H2 |].
  split; [etrans; [exact H3 |] | etrans; [exact H5 |]]; vm_compute; reflexivity.
Defined.

Lemma GetMortgageApplication_access_witness :
  GetMortgageApplication "bank1" BANK_A ["ma1"] ledger3 = ((ma1, ma1_body, None), ledger3) /\
  GetMortgageApplication "dave" SELLER_A ["ma1"] ledger3 =
  ((ma1, "", Some "User davedoes not have rights to access mortgageApplication with id ma1"),
   ledger3).
Proof.
  assert (Unmarshal (stored ledger3 (typeMortgageApplication +:+ "ma1")) = (ma1, None)) as Hma
    by (vm_compute; reflexivity).
  pose proof (GetMortgageApplication_access ledger3 "bank1" BANK_A "ma1" ma1 Hma) as [Hyes _].
  pose proof (GetMortgageApplication_access ledger3 "dave" SELLER_A "ma1" ma1 Hma) as [_ Hno].
  split.
  - etrans; [apply Hyes; right; left; vm_compute; reflexivity |].
    vm_compute; reflexivity.
  - etrans; [apply Hno; intros [E | [E | E]]; vm_compute in E; discriminate |].
    vm_compute; reflexivity.
Defined.

Lemma GetSalesContract_access_witness :
  GetSalesContract "bank2" BANK_A ["sc1"] ledger3 = ((sc1, sc1_body, None), ledger3) /\
  GetSalesContract "eve" APPRAISER_A ["sc1"] ledger3 =
  ((sc1, "", Some "User evedoes not have rights to access salesContract with id sc1"), ledger3).
Proof.
  assert (Unmarshal (stored ledger3 (typeSalesContract +:+ "sc1")) = (sc1, None)) as Hsc
    by (vm_compute; reflexivity).
  pose proof (GetSalesContract_access ledger3 "bank2" BANK_A "sc1" sc1 Hsc) as [Hyes _].
  pose proof (GetSalesContract_access ledger3 "eve" APPRAISER_A "sc1" sc1 Hsc) as [_ Hno].
  split.
  - etrans; [apply Hyes; right; right; right; reflexivity |].
    vm_compute; reflexivity.
  - etrans; [apply Hno; intros [E | [E | [E | E]]]; vm_compute in E; discriminate |].
    vm_compute; reflexivity.
Defined.

Lemma UpdateAppraiserApplication_cascade_witness :
  let after := exec (UpdateAppraiserApplication "eve" APPRAISER_A ["aa1"; aa_value]) ledger3 in
  State after !! "aa:aa1" = Some (Marshal (AA_set_FairMarketValue aa1 500000)) /\
  State after !! "ma:ma1" = Some (Marshal (MA_set_FairMarketValue ma1 500000)).
Proof.
  assert (Unmarshal (stored ledger3 (typeAppraiserApplication +:+ "aa1")) = (aa1, None)) as Haa
    by (vm_compute; reflexivity).
  assert ("eve" = AA_AppraiserId aa1) as Hcaller by (vm_compute; reflexivity).
  assert (Unmarshal aa_value = (fst (Unmarshal (A := AAUpdateSchema) aa_value), None)) as Hu
    by (vm_compute; reflexivity).
  assert (AAU_FairMarketValue (fst (Unmarshal aa_value)) <> 0) as Hv
    by (vm_compute; discriminate).
  assert (Unmarshal (stored ledger3 (typeMortgageApplication +:+ AA_MortgageApplicationId aa1))
          = (ma1, None)) as Hma by (vm_compute; reflexivity).
  assert ("eve" <> MA_ReviewerId ma1) as Hrev by (vm_compute; discriminate).
  assert (Unmarshal (fairMarketValue_payload (AAU_FairMarketValue (fst (Unmarshal aa_value)))) =
          (fst (Unmarshal (A := MAUpdateSchema) (fairMarketValue_payload 500000)), None)) as Hu'
    by (vm_compute; reflexivity).
  assert (MAU_FairMarketValue (fst (Unmarshal (fairMarketValue_payload 500000))) =
          AAU_FairMarketValue (fst (Unmarshal aa_value))) as Hv' by (vm_compute; reflexivity).
  pose proof (UpdateAppraiserApplication_cascade ledger3 "eve" APPRAISER_A "aa1" aa_value aa1
                _ ma1 _ Haa Hcaller eq_refl Hu Hv Hma Hrev Hu' Hv') as (_ & H1 & _ & H2 & _).
  cbv zeta. split; [etrans; [exact H1 |] | etrans; [exact H2 |]]; vm_compute; reflexivity.
Defined.


Lemma Create_then_Get_returns_body_witness :
  eval (Get KMortgageApplication "bank1" BANK_A ["ma1"]) ledger1 = (ma1_body, None) /\
  eval (Get KAppraiserApplication "eve" APPRAISER_A ["aa1"]) ledger2 = (aa1_body, None) /\
  eval (Get KSalesContract "dave" SELLER_A ["sc1"]) ledger3 = (sc1_body, None).
Proof.
  split; [| split].
  - apply (Create_then_Get_returns_body KMortgageApplication empty_stub "alice" BUYER_A
             "ma1" ma1_body "bank1" BANK_A); [exact I |].
    exists ma1. split; [vm_compute; reflexivity | right; left; vm_compute; reflexivity].
  - apply (Create_then_Get_returns_body KAppraiserApplication ledger1 "bank1" BANK_A
             "aa1" aa1_body "eve" APPRAISER_A); [reflexivity |].
    exists aa1. split; [vm_compute; reflexivity | left; vm_compute; reflexivity].
  - apply (Create_then_Get_returns_body KSalesContract ledger2 "alice" BUYER_A
             "sc1" sc1_body "dave" SELLER_A); [reflexivity |].
    exists sc1. split; [vm_compute; reflexivity | left; vm_compute; reflexivity].
Defined.

End Examples.

(** ** The further properties on the session of [Scenario] *)

Module MoreExamples.
Import GoJson Scenario.

Lemma GetStateKey_valid_kinds_witness :
  snd (GetStateKey "ma1" MALOG) = None /\
  GetStateKey "ma1" 14 = ("", errors_New "Invalid type").
Proof.
  destruct (GetStateKey_valid_kinds "ma1" MALOG) as [[_ Hok] _].
  destruct (GetStateKey_valid_kinds "ma1" 14) as [_ Hbad].
  split; [apply Hok; unfold MALOG; lia | apply Hbad; lia].
Defined.

Lemma GetStateKey_injective_in_id_witness : "ma1" = "ma1".
Proof.
  apply (GetStateKey_injective_in_id "ma1" "ma1" "sc:ma1" SALESCONTRACT); reflexivity.
Defined.

Lemma AddKey_effect_witness :
  eval (AddKey "aa:aa1" aaKeysName) ledger1 = (true, None) /\
  State (exec (AddKey "aa:aa1" aaKeysName) ledger1) !! maKeysName = Some (js "['aa:aa1']").
Proof.
  destruct (AddKey_effect "aa:aa1" aaKeysName ledger1) as [Hok _].
  assert (keys_readable ledger1 aaKeysName) as Hk by (left; vm_compute; reflexivity).
  destruct (Hok Hk) as (H1 & H2 & _).
  split; [exact H1 | etrans; [exact H2 |]; vm_compute; reflexivity].
Defined.

Lemma too_few_arguments_witness :
  UpdateSalesContract "alice" BUYER_A ["sc1"] ledger3 =
  (("", errors_New "Could not update salesContract. No parameters provided for update "),
   ledger3).
Proof.
  assert (List.length ["sc1"] < 2)%nat as Hlen by (simpl; lia).
  exact (proj2 (proj2 (proj2 (proj2 (proj2
    (too_few_arguments "alice" BUYER_A ["sc1"] ledger3 Hlen)))))).
Defined.

Lemma Create_role_gate_witness :
  CreateAppraiserApplication "alice" BUYER_A ["aa9"; aa1_body] ledger3 =
  (("", errors_New ("alice" +:+ " is not allowed to create appraiser application")), ledger3) /\
  CreateSalesContract "dave" SELLER_A ["sc9"; sc1_body] ledger3 =
  (("", errors_New ("dave" +:+ " is not allowed to create seller contract")), ledger3).
Proof.
  split.
  - apply (proj1 (Create_role_gate "alice" BUYER_A "aa9" aa1_body [] ledger3)). discriminate.
  - apply (proj2 (Create_role_gate "dave" SELLER_A "sc9" sc1_body [] ledger3)). discriminate.
Defined.

Lemma UpdateMortgageApplication_refused_witness :
  UpdateMortgageApplication "dave" SELLER_A ["ma1"; ma_status_only] ledger3 =
  (("", errors_New ("User with id " +:+ "dave" +:+
        "does not have rights to update the mortgage application")), ledger3).
Proof.
  assert (Unmarshal (stored ledger3 (typeMortgageApplication +:+ "ma1")) = (ma1, None)) as Hma
    by (vm_compute; reflexivity).
  assert (Unmarshal ma_status_only = (fst (Unmarshal (A := MAUpdateSchema) ma_status_only), None))
    as Hu by (vm_compute; reflexivity).
  assert ("dave" <> MA_ReviewerId ma1) as Hrev by (vm_compute; discriminate).
  assert (SELLER_A <> APPRAISER_A) as Hrole by discriminate.
  exact (UpdateMortgageApplication_refused ledger3 "dave" SELLER_A "ma1" ma_status_only ma1 _
           Hma Hu Hrev Hrole).
Defined.

Lemma UpdateMortgageApplication_nothing_to_update_witness :
  UpdateMortgageApplication "bank1" BANK_A ["ma1"; ma_nothing] ledger3 = (("", None), ledger3).
Proof.
  assert (Unmarshal (stored ledger3 (typeMortgageApplication +:+ "ma1")) = (ma1, None)) as Hma
    by (vm_compute; reflexivity).
  assert (Unmarshal ma_nothing = (fst (Unmarshal (A := MAUpdateSchema) ma_nothing), None))
    as Hu by (vm_compute; reflexivity).
  apply (UpdateMortgageApplication_nothing_to_update ledger3 "bank1" BANK_A "ma1" ma_nothing
           ma1 _ Hma Hu).
  left. split; [| split; [| split]]; vm_compute; reflexivity.
Defined.

Lemma UpdateSalesContract_by_outsider_witness :
  exists e, UpdateSalesContract "bank1" BANK_A ["sc1"; sc_nothing] ledger3 =
            (("", Some e), ledger3).
Proof.
  assert (Unmarshal (stored ledger3 (typeSalesContract +:+ "sc1")) = (sc1, None)) as Hsc
    by (vm_compute; reflexivity).
  apply (UpdateSalesContract_by_outsider ledger3 "bank1" BANK_A "sc1" sc_nothing sc1 Hsc);
    vm_compute; discriminate.
Defined.

Lemma UpdateAppraiserApplication_by_outsider_witness :
  exists e, UpdateAppraiserApplication "bank1" BANK_A ["aa1"; aa_value] ledger3 =
            (("", Some e), ledger3).
Proof.
  assert (Unmarshal (stored ledger3 (typeAppraiserApplication +:+ "aa1")) = (aa1, None)) as Haa
    by (vm_compute; reflexivity).
  apply (UpdateAppraiserApplication_by_outsider ledger3 "bank1" BANK_A "aa1" aa_value aa1 Haa).
  vm_compute; discriminate.
Defined.


Lemma Create_keeps_other_documents_witness :
  State ledger3 !! "ma:ma1" = State ledger2 !! "ma:ma1".
Proof.
  apply (Create_keeps_other_documents KSalesContract "alice" BUYER_A "sc1" sc1_body ledger2
           KMortgageApplication "ma1").
  discriminate.
Defined.

Lemma auditor_log_queries_witness :
  GetAuditorBCLogs "bank1" BANK_A [] ledger3 =
  (("", errors_New ("caller " +:+ "bank1" +:+ " does not have rights to access auditor logs")),
   ledger3) /\
  GetAuditorBCLogs "otto" AUDITOR_A [] ledger3 =
  ((Marshal (fst (eval GetBCLogs ledger3)), None), ledger3).
Proof.
  destruct (auditor_log_queries "bank1" BANK_A [] ledger3) as [Hno _].
  destruct (auditor_log_queries "otto" AUDITOR_A [] ledger3) as [_ Hyes].
  split.
  - apply Hno. discriminate.
  - apply Hyes; [reflexivity | vm_compute; reflexivity].
Defined.

Lemma CreateAppraiserApplication_effect_witness :
  eval (CreateAppraiserApplication "bank1" BANK_A ["aa1"; aa1_body]) ledger1 = ("", None) /\
  State ledger2 !! "user:eve" =
    Some (js "{'id':'user:eve','affiliation':4,'appraiserApplications':['aa1']}") /\
  State ledger2 !! maKeysName = Some (js "['aa:aa1']").
Proof.
  assert (Unmarshal aa1_body = (aa1, None)) as Haa by (vm_compute; reflexivity).
  assert (keys_readable ledger1 aaKeysName) as Hk by (left; vm_compute; reflexivity).
  pose proof (CreateAppraiserApplication_effect ledger1 "bank1" "aa1" aa1_body aa1 Haa Hk)
    as (H1 & _ & H3 & H4).
  split; [exact H1 |].
  split; [etrans; [exact H3 |] | etrans; [exact H4 |]]; vm_compute; reflexivity.
Defined.

Lemma AppendMALog_then_GetAuditorBCLogs_witness :
  eval (GetAuditorBCLogs "otto" AUDITOR_A [])
       (exec (AppendMALog "UpdateSalesContract" "Price updated to: 440000" "Drafted" "sc1")
             ledger3) =
  (Marshal (go_append (fst (eval GetBCLogs ledger3))
              {| Log_MortgageApplicationId := "sc1";
                 Log_BuyerId := "";
                 Log_ReviewerId := "";
                 Log_Status := "Drafted";
                 Log_Action := "UpdateSalesContract";
                 Log_Text := "Price updated to: 440000";
                 Log_Timestamp := clock 0 |}), None).
Proof.
  assert (eval (AppendMALog "UpdateSalesContract" "Price updated to: 440000" "Drafted" "sc1")
               ledger3 = None) as Hok by (vm_compute; reflexivity).
  pose proof (AppendMALog_then_GetAuditorBCLogs "UpdateSalesContract"
                "Price updated to: 440000" "Drafted" "sc1" "otto" [] ledger3) as H.
  cbv zeta in H. specialize (H Hok).
  assert (len (Marshal (go_append (fst (eval GetBCLogs ledger3))
              {| Log_MortgageApplicationId := "sc1";
                 Log_BuyerId := "";
                 Log_ReviewerId := "";
                 Log_Status := "Drafted";
                 Log_Action := "UpdateSalesContract";
                 Log_Text := "Price updated to: 440000";
                 Log_Timestamp := time_Format (Clock ledger3) |})) <> 0) as Hlen
    by (vm_compute; discriminate).
  specialize (H Hlen).
  assert (Unmarshal (Marshal (go_append (fst (eval GetBCLogs ledger3))
              {| Log_MortgageApplicationId := "sc1";
                 Log_BuyerId := "";
                 Log_ReviewerId := "";
                 Log_Status := "Drafted";
                 Log_Action := "UpdateSalesContract";
                 Log_Text := "Price updated to: 440000";
                 Log_Timestamp := time_Format (Clock ledger3) |})) =
          (go_append (fst (eval GetBCLogs ledger3))
              {| Log_MortgageApplicationId := "sc1";
                 Log_BuyerId := "";
                 Log_ReviewerId := "";
                 Log_Status := "Drafted";
                 Log_Action := "UpdateSalesContract";
                 Log_Text := "Price updated to: 440000";
                 Log_Timestamp := time_Format (Clock ledger3) |}, None)) as Hround
    by (vm_compute; reflexivity).
  specialize (H Hround).
  etrans; [exact H |]. vm_compute; reflexivity.
Defined.

Lemma CreateSalesContract_effect_witness :
  eval (CreateSalesContract "alice" BUYER_A ["sc1"; sc1_body]) ledger2 = ("", None) /\
  State ledger3 !! "user:dave" =
    Some (js "{'id':'user:dave','affiliation':2,'salesContracts':['sc1']}") /\
  State ledger3 !! "user:alice" =
    Some (js "{'id':'user:alice','affiliation':1,'mortgageApplications':['ma1'],'salesContracts':['sc1']}") /\
  State ledger3 !! "user:bank1" =
    Some (js "{'id':'user:bank1','affiliation':3,'mortgageApplications':['ma1'],'salesContracts':['sc1']}").
Proof.
  assert (Unmarshal sc1_body = (sc1, None)) as Hsc by (vm_compute; reflexivity).
  assert (keys_readable ledger2 scKeysName) as Hk by (left; vm_compute; reflexivity).
  assert (SC_SellerId sc1 <> "alice") as H1 by (vm_compute; discriminate).
  assert (SC_ReviewerId sc1 <> "alice") as H2 by (vm_compute; discriminate).
  assert (SC_SellerId sc1 <> SC_ReviewerId sc1) as H3 by (vm_compute; discriminate).
  pose proof (CreateSalesContract_effect ledger2 "alice" "sc1" sc1_body sc1 Hsc Hk H1 H2 H3)
    as (Ha & Hb & Hc & Hd).
  split; [exact Ha |].
  split; [etrans; [exact Hb |] | split; [etrans; [exact Hc |] | etrans; [exact Hd |]]];
    vm_compute; reflexivity.
Defined.

End MoreExamples.
